(** * bench_summary: the criterion summary script of base-d

    A shallow embedding of [scripts/bench_summary.py] and the properties of
    its aggregation and reporting pipeline.

    - Python values that reach the script out of [json.load] are [pyval]s;
      floats are the kernel's binary64 numbers, integers are [Z].
    - A Python string is held as its UTF-8 encoding, one [ascii] per byte;
      its length in characters is the number of code points, [Py.len].
    - An exception is a [Raise] in the [result] type; printing procedures
      live in [io], which keeps what was printed before an exception.
    - The directory tree under the working directory is a [node]; a
      directory is a finite map from names to nodes.
    - Python dictionaries are [gmap]s. *)

From Stdlib Require Import ZArith Floats Ascii ZifyBool Lia.
From stdpp Require Import gmap strings list fin_maps sorting pretty.

Set Warnings "-register-all,-clear-no-such-hyp".
Local Open Scope Z_scope.

(** ** Exceptions and results *)

Inductive exn :=
  | FileNotFoundError
  | NotADirectoryError
  | IsADirectoryError
  | UnicodeDecodeError
  | JSONDecodeError
  | ValueError
  | RecursionError
  | KeyError
  | TypeError
  | ZeroDivisionError
  | OverflowError
  | SystemExit (code : Z).

Inductive result (A : Type) :=
  | Ok (a : A)
  | Raise (e : exn).
Arguments Ok {A} a.
Arguments Raise {A} e.

Global Instance result_ret : MRet result := @Ok.
Global Instance result_fmap : FMap result := λ A B f m,
  match m with
  | Ok a => Ok (f a)
  | Raise e => Raise e
  end.
Global Instance result_bind : MBind result := λ A B f m,
  match m with
  | Ok a => f a
  | Raise e => Raise e
  end.

(** ** Python values *)

(** What [json.load] can return: [None], booleans, integers, floats (the
    literals [NaN], [Infinity] and [-Infinity] included), strings, lists and
    dictionaries with string keys. *)
Inductive pyval :=
  | PNone
  | PBool (b : bool)
  | PInt (z : Z)
  | PFloat (f : float)
  | PStr (s : string)
  | PList (l : list pyval)
  | PDict (d : gmap string pyval).

Module Py.

(** [v[k]] for a string key [k]: only a dictionary can be subscripted by a
    string, and a missing key is a [KeyError]. *)
Definition getitem (v : pyval) (k : string) : result pyval :=
  match v with
  | PDict d =>
      match d !! k with
      | Some x => Ok x
      | None => Raise KeyError
      end
  | _ => Raise TypeError
  end.

(** *** Numbers *)

Inductive num :=
  | NInt (z : Z)
  | NFloat (f : float).

(** The numeric reading of a value; [bool] is a subclass of [int]. *)
Definition as_num (v : pyval) : option num :=
  match v with
  | PBool b => Some (NInt (if b then 1 else 0))
  | PInt z => Some (NInt z)
  | PFloat f => Some (NFloat f)
  | _ => None
  end.

Definition is_inf (x : spec_float) : bool :=
  match x with
  | S754_infinity _ => true
  | _ => false
  end.

(** [float(z)]: the nearest binary64 number, ties to even; an integer that
    rounds past the largest float is an [OverflowError]. *)
Definition float_of_int (z : Z) : result float :=
  let x := binary_normalize prec emax z 0 false in
  if is_inf x then Raise OverflowError else Ok (SF2Prim x).

(** An integer as an unrounded mantissa with exponent 0. *)
Definition raw_int (z : Z) : spec_float :=
  match z with
  | Z0 => S754_zero false
  | Zpos p => S754_finite false p 0
  | Zneg p => S754_finite true p 0
  end.

(** [a / b] on two integers: the exact quotient rounded once to binary64. *)
Definition int_truediv (a b : Z) : result float :=
  if b =? 0 then Raise ZeroDivisionError
  else
    let x := SFdiv prec emax (raw_int a) (raw_int b) in
    if is_inf x then Raise OverflowError else Ok (SF2Prim x).

(** [a / b] on two floats. *)
Definition float_truediv (a b : float) : result float :=
  if (b =? 0)%float then Raise ZeroDivisionError else Ok (a / b)%float.

Definition to_float (n : num) : result float :=
  match n with
  | NInt z => float_of_int z
  | NFloat f => Ok f
  end.

(** The operator [/]. With a float on either side both operands are
    converted, left one first, before the divisor is tested for zero. *)
Definition truediv (a b : pyval) : result float :=
  match as_num a, as_num b with
  | Some (NInt x), Some (NInt y) => int_truediv x y
  | Some x, Some y =>
      fa ← to_float x;
      fb ← to_float y;
      float_truediv fa fb
  | _, _ => Raise TypeError
  end.

(** *** Strings and formatting *)

Fixpoint repeat_char (c : ascii) (n : nat) : string :=
  match n with
  | O => ""
  | S n' => String c (repeat_char c n')
  end.

(** A byte [10xxxxxx] continues a code point started by an earlier byte. *)
Definition is_continuation (c : ascii) : bool :=
  let n := nat_of_ascii c in (128 <=? n)%nat && (n <? 192)%nat.

(** [len(s)]: the number of code points of [s]. In the UTF-8 encoding each
    code point is one byte that is not a continuation byte, followed by
    its continuation bytes. *)
Fixpoint len (s : string) : nat :=
  match s with
  | "" => O
  | String c s' => if is_continuation c then len s' else S (len s')
  end.

(** The decoder of UTF-8, as a test: [expect] continuation bytes are still
    due, the next of them within [lo, hi) (which excludes overlong forms,
    surrogates and code points past U+10FFFF). A file name that fails the
    test reaches Python with escapes in place of its bytes and is not the
    encoding of the string Python holds. *)
Fixpoint utf8_from (expect lo hi : nat) (s : string) : bool :=
  match s with
  | "" => bool_decide (expect = O)
  | String c s' =>
      let n := nat_of_ascii c in
      match expect with
      | O =>
          if (n <? 128)%nat then utf8_from 0 128 192 s'
          else if (194 <=? n)%nat && (n <? 224)%nat then utf8_from 1 128 192 s'
          else if (n =? 224)%nat then utf8_from 2 160 192 s'
          else if (n =? 237)%nat then utf8_from 2 128 160 s'
          else if (225 <=? n)%nat && (n <? 240)%nat then utf8_from 2 128 192 s'
          else if (n =? 240)%nat then utf8_from 3 144 192 s'
          else if (n =? 244)%nat then utf8_from 3 128 144 s'
          else if (241 <=? n)%nat && (n <? 244)%nat then utf8_from 3 128 192 s'
          else false
      | S expect' =>
          (lo <=? n)%nat && (n <? hi)%nat && utf8_from expect' 128 192 s'
      end
  end.

Definition valid_utf8 (s : string) : bool := utf8_from 0 128 192 s.

(** [f"{s:<w}"]: padded with spaces on the right to [w] characters. *)
Definition ljust (w : nat) (s : string) : string :=
  s +:+ repeat_char " " (w - len s).

(** [str(z)] *)
Definition str_of_int (z : Z) : string := pretty z.

Definition digits (n : Z) : string := pretty (Z.to_N n).

Definition zfill (w : nat) (s : string) : string :=
  repeat_char "0" (w - len s) +:+ s.

(** [num / den] rounded to the nearest integer, ties to even ([0 < den]). *)
Definition round_half_even (num den : Z) : Z :=
  let q := num `div` den in
  let r := num `mod` den in
  match 2 * r ?= den with
  | Lt => q
  | Gt => q + 1
  | Eq => if Z.even q then q else q + 1
  end.

(** The decimal rendering of [n / 10^d] with [d] fractional digits. *)
Definition fixed_digits (d : nat) (n : Z) : string :=
  let p := 10 ^ Z.of_nat d in
  digits (n `div` p) +:+
  match d with
  | O => ""
  | _ => "." +:+ zfill d (digits (n `mod` p))
  end.

Definition sign_str (s : bool) : string := if s then "-" else "".

(** [f"{x:.df}"]: the exact binary value of [x] rounded to [d] decimals,
    ties to even. *)
Definition format_fixed (d : nat) (x : float) : string :=
  match Prim2SF x with
  | S754_nan => "nan"
  | S754_infinity s => sign_str s +:+ "inf"
  | S754_zero s => sign_str s +:+ fixed_digits d 0
  | S754_finite s m e =>
      let scaled := Z.pos m * 10 ^ Z.of_nat d in
      let n := if 0 <=? e then scaled * 2 ^ e
               else round_half_even scaled (2 ^ (- e)) in
      sign_str s +:+ fixed_digits d n
  end.

(** [s.endswith(t)] *)
Fixpoint ends_with (t s : string) : bool :=
  if String.eqb s t then true
  else match s with
       | "" => false
       | String _ s' => ends_with t s'
       end.

(** [v == 0] for a number [v]. *)
Definition is_zero (v : pyval) : bool :=
  match as_num v with
  | Some (NInt z) => z =? 0
  | Some (NFloat f) => (f =? 0)%float
  | None => false
  end.

End Py.

(** ** Printing procedures *)

(** What a procedure printed, one string per [print] call, and how it
    ended. Output printed before an exception stays printed. *)
Record io (A : Type) := Io { printed : list string; outcome : result A }.
Arguments Io {A} printed outcome.
Arguments printed {A} i.
Arguments outcome {A} i.

Global Instance io_ret : MRet io := λ A a, Io [] (Ok a).
Global Instance io_bind : MBind io := λ A B f m,
  match outcome m with
  | Ok a => Io (printed m ++ printed (f a)) (outcome (f a))
  | Raise e => Io (printed m) (Raise e)
  end.

Definition print (s : string) : io unit := Io [s] (Ok tt).
Definition lift {A} (r : result A) : io A := Io [] r.
Definition sys_exit {A} (code : Z) : io A := lift (Raise (SystemExit code)).

(** [for x in l: body x] in [result], threading the loop's variables. *)
Fixpoint foldM {A S} (body : S → A → result S) (s : S) (l : list A) : result S :=
  match l with
  | [] => Ok s
  | x :: l' => s' ← body s x; foldM body s' l'
  end.

(** [for x in l: body x] in [io]. *)
Fixpoint for_each {A} (l : list A) (body : A → io unit) : io unit :=
  match l with
  | [] => mret tt
  | x :: l' => body x;; for_each l' body
  end.

(** The status the interpreter exits with. *)
Definition exit_status {A} (m : io A) : Z :=
  match outcome m with
  | Ok _ => 0
  | Raise (SystemExit code) => code
  | Raise _ => 1
  end.

(** ** The file system *)

(** The text of a file as [json.load] sees it: bytes that do not decode,
    text that is not JSON, JSON with an integer literal of more digits
    than [int] converts from a string (4300 by default), JSON nested deeper
    than the parser's recursion allows, or a JSON document that loads. *)
Inductive content :=
  | Undecodable
  | NotJson
  | IntegerTooLong
  | NestedTooDeep
  | Json (v : pyval).

Inductive node :=
  | File (c : content)
  | Dir (entries : gmap string node).

(** A [pathlib.Path] relative to the working directory, as its parts. *)
Abbreviation path := (list string).

Module Fs.

Inductive errno := ENOENT | ENOTDIR.

Fixpoint walk (n : node) (p : path) : node + errno :=
  match p with
  | [] => inl n
  | c :: p' =>
      match n with
      | File _ => inr ENOTDIR
      | Dir entries =>
          match entries !! c with
          | Some n' => walk n' p'
          | None => inr ENOENT
          end
      end
  end.

(** [p / c], written [p </> c] below. *)
Definition join (p : path) (c : string) : path := p ++ [c].

(** [p.name] *)
Definition name (p : path) : string := default "" (last p).

(** [p.exists()] *)
Definition exists_ (fs : node) (p : path) : bool :=
  match walk fs p with
  | inl _ => true
  | inr _ => false
  end.

(** [p.is_dir()] *)
Definition is_dir (fs : node) (p : path) : bool :=
  match walk fs p with
  | inl (Dir _) => true
  | _ => false
  end.

(** [p.iterdir()], in the order the map lists its keys. *)
Definition iterdir (fs : node) (p : path) : result (list path) :=
  match walk fs p with
  | inl (Dir entries) => Ok (join p <$> (map_to_list entries).*1)
  | inl (File _) => Raise NotADirectoryError
  | inr ENOENT => Raise FileNotFoundError
  | inr ENOTDIR => Raise NotADirectoryError
  end.

(** [open(p)] for reading; every file of the tree is readable. *)
Definition open (fs : node) (p : path) : result content :=
  match walk fs p with
  | inl (File c) => Ok c
  | inl (Dir _) => Raise IsADirectoryError
  | inr ENOENT => Raise FileNotFoundError
  | inr ENOTDIR => Raise NotADirectoryError
  end.

(** [json.load(f)] *)
Definition json_load (c : content) : result pyval :=
  match c with
  | Undecodable => Raise UnicodeDecodeError
  | NotJson => Raise JSONDecodeError
  | IntegerTooLong => Raise ValueError
  | NestedTooDeep => Raise RecursionError
  | Json v => Ok v
  end.

(** The order of paths: part by part, strings by code point. *)
Fixpoint path_leb (p q : path) : bool :=
  match p, q with
  | [], _ => true
  | _ :: _, [] => false
  | a :: p', b :: q' =>
      match String.compare a b with
      | Lt => true
      | Gt => false
      | Eq => path_leb p' q'
      end
  end.

(** [sorted(ps)] *)
Definition sorted (ps : list path) : list path :=
  merge_sort (λ p q, Is_true (path_leb p q)) ps.

End Fs.

Infix "</>" := Fs.join (at level 40, left associativity).

(** ** The script *)

Definition CRITERION_DIR : path := ["target"; "criterion"].

(** *** ThroughputCalculator *)

Definition get_throughput (mean_ns : pyval) (size_bytes : Z) : result (float * string) :=
  seconds ← Py.truediv mean_ns (PInt 1000000000);
  bytes_per_sec ← Py.truediv (PInt size_bytes) (PFloat seconds);
  mb_per_sec ← Py.truediv (PFloat bytes_per_sec) (PInt (1024 * 1024));
  if (1000 <=? mb_per_sec)%float then
    gb_per_sec ← Py.truediv (PFloat mb_per_sec) (PInt 1024);
    Ok (mb_per_sec, Py.format_fixed 2 gb_per_sec +:+ " GB/s")
  else
    Ok (mb_per_sec, Py.format_fixed 1 mb_per_sec +:+ " MB/s").

(** *** EstimateReader *)

Record estimates := Estimates { est_mean_ns : pyval; est_std_dev_ns : pyval }.

(** The body of the [try] block. *)
Definition read_estimates (fs : node) (p : path) : result (option estimates) :=
  f ← Fs.open fs (p </> "new" </> "estimates.json");
  data ← Fs.json_load f;
  mean ← Py.getitem data "mean";
  mean_ns ← Py.getitem mean "point_estimate";
  std_dev ← Py.getitem data "std_dev";
  std_dev_ns ← Py.getitem std_dev "point_estimate";
  Ok (Some (Estimates mean_ns std_dev_ns)).

Definition parse_estimates (fs : node) (p : path) : result (option estimates) :=
  match read_estimates fs p with
  | Raise FileNotFoundError | Raise JSONDecodeError | Raise KeyError => Ok None
  | r => r
  end.

(** *** GroupAggregator *)

(** One cell of [results]: [{**estimates, "throughput": ..., "throughput_mbps": ...}]. *)
Record entry := Entry {
  mean_ns : pyval;
  std_dev_ns : pyval;
  throughput : string;
  throughput_mbps : float
}.

Abbreviation variant_results := (gmap Z entry).
Abbreviation group_results := (gmap string variant_results).

Definition paths : list string := ["Scalar"; "LUT"; "Specialized"].
Definition sizes : list Z := [64; 256; 1024; 4096; 16384; 65536].

(** The body of [for size in sizes]. A dictionary of two keys is true, so
    [if estimates] tests for [None] only. *)
Definition summarize_size (fs : node) (path_dir : path) (path : string)
    (results : group_results) (size : Z) : result group_results :=
  let size_dir := path_dir </> Py.str_of_int size in
  if Fs.exists_ fs size_dir then
    estimates ← parse_estimates fs size_dir;
    match estimates with
    | Some est =>
        '(mb_per_sec, formatted) ← get_throughput (est_mean_ns est) size;
        let cell := Entry (est_mean_ns est) (est_std_dev_ns est) formatted mb_per_sec in
        Ok (<[path := <[size := cell]> (default ∅ (results !! path))]> results)
    | None => Ok results
    end
  else Ok results.

(** The body of [for path in paths]. *)
Definition summarize_path (fs : node) (group_dir : path)
    (results : group_results) (path : string) : result group_results :=
  let path_dir := group_dir </> path in
  if negb (Fs.exists_ fs path_dir) then Ok results
  else foldM (summarize_size fs path_dir path) (<[path := ∅]> results) sizes.

Definition summarize_dictionary (fs : node) (group_dir : path) : result group_results :=
  foldM (summarize_path fs group_dir) ∅ paths.

(** *** ReportRenderer *)

Definition nl : string := String "010"%char "".
Definition rule (c : ascii) (n : nat) : string := Py.repeat_char c n.
Definition no_results_msg : string := "No benchmark results found. Run: cargo bench".

(** [path in results and size in results[path]], with the cell. *)
Definition cell (results : group_results) (path : string) (size : Z) : option entry :=
  results !! path ≫= (.!! size).

(** [if not results] *)
Definition is_empty (results : group_results) : bool := bool_decide (size results = 0%nat).

(** [sorted(CRITERION_DIR.iterdir())] *)
Definition list_groups (fs : node) : result (list path) :=
  Fs.sorted <$> Fs.iterdir fs CRITERION_DIR.

(** **** Compact mode *)

(** The variables of the loop that builds one row. [best_throughput] starts
    as the integer [0], which compares with a float as [0.0] does. *)
Record scan := Scan {
  row : string;
  best_path : option string;
  best_throughput : float
}.

(** The body of [for path in ["Scalar", "LUT", "Specialized"]]. *)
Definition compact_step (results : group_results) (st : scan) (path : string) : scan :=
  match cell results path 65536 with
  | Some c =>
      let row' := row st +:+ " " +:+ Py.ljust 12 (throughput c) in
      if (best_throughput st <? throughput_mbps c)%float
      then Scan row' (Some path) (throughput_mbps c)
      else Scan row' (best_path st) (best_throughput st)
  | None =>
      Scan (row st +:+ " " +:+ Py.ljust 12 "-") (best_path st) (best_throughput st)
  end.

Definition compact_scan (name : string) (results : group_results) : scan :=
  foldl (compact_step results) (Scan (Py.ljust 25 name) None 0%float) paths.

(** The row printed for a group; [if best_path] is false for [None] and for
    the empty string. *)
Definition compact_row (name : string) (results : group_results) : string :=
  let st := compact_scan name results in
  match best_path st with
  | Some p => if bool_decide (p = "") then row st else row st +:+ " " +:+ p
  | None => row st
  end.

(** The body of [for group_dir in groups] that fills [all_results]. *)
Definition collect_group (fs : node) (all_results : gmap string group_results)
    (group_dir : path) : result (gmap string group_results) :=
  if negb (Fs.is_dir fs group_dir) || bool_decide (Fs.name group_dir = "report")
  then Ok all_results
  else
    results ← summarize_dictionary fs group_dir;
    Ok (<[Fs.name group_dir := results]> all_results).

(** [sorted(all_results.items())]: the keys differ, so the pairs are ordered
    by key. *)
Definition sorted_items (all_results : gmap string group_results)
    : list (string * group_results) :=
  merge_sort (λ a b, String.le a.1 b.1) (map_to_list all_results).

Definition table_header : list string :=
  [ nl +:+ rule "=" 90;
    "base-d Benchmark Summary (64KB input)";
    rule "=" 90;
    Py.ljust 25 "Operation/Dictionary" +:+ " " +:+ Py.ljust 12 "Scalar" +:+ " "
      +:+ Py.ljust 12 "LUT" +:+ " " +:+ Py.ljust 12 "Specialized" +:+ " "
      +:+ Py.ljust 10 "Best";
    rule "-" 90 ].

(** The body of [for name, results in sorted(all_results.items())]. *)
Definition print_compact_row (item : string * group_results) : io unit :=
  if is_empty item.2 then mret tt
  else print (compact_row item.1 item.2).

Definition print_full_table (fs : node) : io unit :=
  if negb (Fs.exists_ fs CRITERION_DIR) then
    print no_results_msg;;
    sys_exit 1
  else
    groups ← lift (list_groups fs);
    all_results ← lift (foldM (collect_group fs) ∅ groups);
    for_each table_header print;;
    for_each (sorted_items all_results) print_compact_row;;
    print (rule "-" 90).

(** **** Detailed mode *)

(** The row of one variant: its cells at 64 B, 1 KB and 64 KB. *)
Definition detailed_row (results : group_results) (path : string) : string :=
  foldl (λ row size,
           match cell results path size with
           | Some c => row +:+ " " +:+ Py.ljust 10 (throughput c)
           | None => row +:+ " " +:+ Py.ljust 10 "-"
           end)
        ("  " +:+ Py.ljust 12 path) [64; 1024; 65536].

Definition print_rows (results : group_results) : io unit :=
  for_each paths (λ path,
    match results !! path with
    | None => mret tt
    | Some _ => print (detailed_row results path)
    end).

Definition speedup_header : string := nl +:+ "  Speedup vs Scalar (64KB):".

Definition speedup_line (path : string) (speedup : float) : string :=
  "    " +:+ path +:+ ": " +:+ Py.format_fixed 1 speedup +:+ "x".

(** The block under [# Calculate speedup]. *)
Definition print_speedup (results : group_results) : io unit :=
  match cell results "Scalar" 65536 with
  | Some scalar =>
      let scalar_ns := mean_ns scalar in
      print speedup_header;;
      for_each ["LUT"; "Specialized"] (λ path,
        match cell results path 65536 with
        | Some c =>
            speedup ← lift (Py.truediv scalar_ns (mean_ns c));
            print (speedup_line path speedup)
        | None => mret tt
        end)
  | None => mret tt
  end.

(** The body of [for group_dir in groups]. *)
Definition print_group (fs : node) (group_dir : path) : io unit :=
  if negb (Fs.is_dir fs group_dir) || bool_decide (Fs.name group_dir = "report")
  then mret tt
  else
    print (nl +:+ Fs.name group_dir);;
    print (rule "-" 60);;
    results ← lift (summarize_dictionary fs group_dir);
    if is_empty results then print "  No results yet"
    else
      print ("  " +:+ Py.ljust 12 "Path" +:+ " " +:+ Py.ljust 10 "64B" +:+ " "
               +:+ Py.ljust 10 "1KB" +:+ " " +:+ Py.ljust 10 "64KB");;
      print ("  " +:+ rule "-" 12 +:+ " " +:+ rule "-" 10 +:+ " "
               +:+ rule "-" 10 +:+ " " +:+ rule "-" 10);;
      print_rows results;;
      print_speedup results.

Definition print_detailed (fs : node) : io unit :=
  if negb (Fs.exists_ fs CRITERION_DIR) then
    print no_results_msg;;
    sys_exit 1
  else
    groups ← lift (list_groups fs);
    print (nl +:+ rule "=" 80);;
    print "base-d Benchmark Results (Detailed)";;
    print (rule "=" 80);;
    for_each groups (print_group fs).

(** [__main__]: [argv] starts with the script's name. *)
Definition main (argv : list string) (fs : node) : io unit :=
  match argv !! 1%nat with
  | Some arg => if bool_decide (arg = "--detailed") then print_detailed fs
                else print_full_table fs
  | None => print_full_table fs
  end.

(** ** Sample trees *)

Definition record (mean std_dev : pyval) : node :=
  Dir {[ "new" := Dir {[ "estimates.json" :=
    File (Json (PDict {[ "mean" := PDict {[ "point_estimate" := mean ]};
                         "std_dev" := PDict {[ "point_estimate" := std_dev ]} ]})) ]} ]}.

Definition tree (groups : gmap string node) : node :=
  Dir {[ "target" := Dir {[ "criterion" := Dir groups ]} ]}.

Definition fs_demo : node :=
  tree {[ "encode_base64" := Dir {[ "Scalar" := Dir {[ "64" := record (PFloat 100) (PFloat 1);
                                                       "65536" := record (PFloat 1000) (PFloat 1) ]};
                                    "LUT" := Dir {[ "65536" := record (PFloat 500) (PFloat 1) ]} ]};
          "decode_hex" := Dir ∅;
          "report" := Dir ∅;
          "zeta" := Dir {[ "Specialized" := Dir ∅ ]} ]}.

(** A record with a mean of zero. *)
Definition fs_zero_mean : node :=
  tree {[ "encode" := Dir {[ "Scalar" := Dir {[ "65536" := record (PFloat 0) (PFloat 0) ]} ]} ]}.

(** Records of the wrong shape: the mean is a number where an object is
    expected, and the document is a list. *)
Definition fs_mean_is_number : node :=
  Dir {[ "new" := Dir {[ "estimates.json" :=
    File (Json (PDict {[ "mean" := PFloat 1.5;
                         "std_dev" := PDict {[ "point_estimate" := PFloat 1 ]} ]})) ]} ]}.

Definition fs_document_is_list : node :=
  Dir {[ "new" := Dir {[ "estimates.json" := File (Json (PList [PFloat 1.5])) ]} ]}.

(** A variant directory whose only record is not JSON. *)
Definition fs_unparsed_variant : node :=
  tree {[ "encode" := Dir {[ "Scalar" := Dir {[ "65536" :=
    Dir {[ "new" := Dir {[ "estimates.json" := File NotJson ]} ]} ]} ]} ]}.

(** Scalar and LUT with the same negative mean at 64 KB. *)
Definition fs_negative_means : node :=
  tree {[ "encode" := Dir {[ "Scalar" := Dir {[ "65536" := record (PFloat (-1000)) (PFloat 1) ]};
                             "LUT" := Dir {[ "65536" := record (PFloat (-1000)) (PFloat 1) ]} ]} ]}.

(** Scalar and LUT tied at 64 KB, Specialized slower. *)
Definition fs_tie : node :=
  tree {[ "encode" := Dir {[ "Scalar" := Dir {[ "65536" := record (PFloat 1000) (PFloat 1) ]};
                             "LUT" := Dir {[ "65536" := record (PFloat 1000) (PFloat 1) ]};
                             "Specialized" := Dir {[ "65536" := record (PFloat 2000) (PFloat 1) ]} ]} ]}.

(** A group without any variant directory, next to one with a record. *)
Definition fs_empty_group : node :=
  tree {[ "decode" := Dir ∅;
          "encode" := Dir {[ "Scalar" := Dir {[ "65536" := record (PFloat 1000) (PFloat 1) ]} ]} ]}.

(** Integer means at 64 KB: 10^310 ns for Scalar, 1 ns for LUT. *)
Definition fs_huge_mean : node :=
  tree {[ "encode" := Dir {[ "Scalar" := Dir {[ "65536" := record (PInt (10 ^ 310)) (PFloat 1) ]};
                             "LUT" := Dir {[ "65536" := record (PInt 1) (PFloat 1) ]} ]} ]}.

(** The results of a group, empty if the aggregation raises. *)
Definition results_of (fs : node) (group : string) : group_results :=
  match summarize_dictionary fs (CRITERION_DIR </> group) with
  | Ok results => results
  | Raise _ => ∅
  end.

(** ** The order of floats *)

(** Comparison of binary64 numbers goes through a rank: the class of the
    number (infinities, signs, zero), then exponent and mantissa. *)
Module FloatOrder.

Definition rank (x : spec_float) : option (Z * Z * Z) :=
  match x with
  | S754_nan => None
  | S754_infinity s => Some (if s then -2 else 2, 0, 0)
  | S754_zero _ => Some (0, 0, 0)
  | S754_finite s m e =>
      Some (if s then (-1, - e, Z.neg m) else (1, e, Z.pos m))
  end.

Definition lex_ltb (a b : Z * Z * Z) : bool :=
  let '(a1, a2, a3) := a in
  let '(b1, b2, b3) := b in
  (a1 <? b1) || ((a1 =? b1) && ((a2 <? b2) || ((a2 =? b2) && (a3 <? b3)))).

Definition lex_eqb (a b : Z * Z * Z) : bool :=
  let '(a1, a2, a3) := a in
  let '(b1, b2, b3) := b in
  (a1 =? b1) && (a2 =? b2) && (a3 =? b3).

Definition frank (x : float) : option (Z * Z * Z) := rank (Prim2SF x).

End FloatOrder.

(** ** Vocabulary of the statements *)

(** The cell that the record under [path_dir / str(size)] gives: the
    location exists, the reader returns an estimate and the throughput of
    its mean is computed. *)
Definition measured (fs : node) (path_dir : path) (size : Z) (c : entry) : Prop :=
  Fs.exists_ fs (path_dir </> Py.str_of_int size) = true ∧
  ∃ est mb display,
    parse_estimates fs (path_dir </> Py.str_of_int size) = Ok (Some est) ∧
    get_throughput (est_mean_ns est) size = Ok (mb, display) ∧
    c = Entry (est_mean_ns est) (est_std_dev_ns est) display mb.

(** [q] is enumerated before [p]. *)
Definition before (q p : string) : Prop :=
  ∃ i j, paths !! i = Some q ∧ paths !! j = Some p ∧ (i < j)%nat.

(** The rows of the compact table for the collected groups. *)
Definition compact_rows (items : list (string * group_results)) : list string :=
  (λ item, compact_row item.1 item.2) <$> filter (λ item, is_empty item.2 = false) items.

(** A listed path that the reports take for a group. *)
Definition is_group (fs : node) (g : path) : Prop :=
  Fs.is_dir fs g = true ∧ Fs.name g ≠ "report".

(** The two lines above the rows of a detailed block. *)
Definition detailed_table_header : list string :=
  [ "  " +:+ Py.ljust 12 "Path" +:+ " " +:+ Py.ljust 10 "64B" +:+ " "
      +:+ Py.ljust 10 "1KB" +:+ " " +:+ Py.ljust 10 "64KB";
    "  " +:+ rule "-" 12 +:+ " " +:+ rule "-" 10 +:+ " "
      +:+ rule "-" 10 +:+ " " +:+ rule "-" 10 ].

(** [sys.exit] raises [SystemExit]. *)
Definition is_exit (e : exn) : bool :=
  match e with
  | SystemExit _ => true
  | _ => false
  end.

(** The speedup lines under the header, for the variants with a cell at
    64 KB whose quotient with the Scalar mean has a value. *)
Definition speedup_lines (results : group_results) (scalar : entry) : list string :=
  path ← ["LUT"; "Specialized"];
  match cell results path 65536 with
  | Some c =>
      match Py.truediv (mean_ns scalar) (mean_ns c) with
      | Ok speedup => [speedup_line path speedup]
      | Raise _ => []
      end
  | None => []
  end.

(** * Properties *)

(** ** Floats *)

Module FloatFacts.
Import FloatOrder.

Lemma SFltb_rank x y :
  SFltb x y = match rank x, rank y with
              | Some a, Some b => lex_ltb a b
              | _, _ => false
              end.
Proof.
  unfold SFltb.
  destruct x as [sx|sx| |sx mx ex], y as [sy|sy| |sy my ey]; simpl;
    try destruct sx; try destruct sy; simpl; try reflexivity.
  - destruct (Z.compare_spec ex ey); simpl; [subst| |].
    + change (Pos.compare_cont Eq mx my) with (mx ?= my)%positive.
      destruct (Pos.compare_spec mx my); simpl; lia.
    + lia.
    + lia.
  - destruct (Z.compare_spec ex ey); simpl; [subst| |].
    + change (Pos.compare_cont Eq mx my) with (mx ?= my)%positive.
      destruct (Pos.compare_spec mx my); simpl; lia.
    + lia.
    + lia.
Qed.

Lemma SFeqb_rank x y :
  SFeqb x y = match rank x, rank y with
              | Some a, Some b => lex_eqb a b
              | _, _ => false
              end.
Proof.
  unfold SFeqb.
  destruct x as [sx|sx| |sx mx ex], y as [sy|sy| |sy my ey]; simpl;
    try destruct sx; try destruct sy; simpl; try reflexivity.
  - destruct (Z.compare_spec ex ey); simpl; [subst| |].
    + change (Pos.compare_cont Eq mx my) with (mx ?= my)%positive.
      destruct (Pos.compare_spec mx my); simpl; lia.
    + lia.
    + lia.
  - destruct (Z.compare_spec ex ey); simpl; [subst| |].
    + change (Pos.compare_cont Eq mx my) with (mx ?= my)%positive.
      destruct (Pos.compare_spec mx my); simpl; lia.
    + lia.
    + lia.
Qed.

Lemma ltb_rank (x y : float) :
  (x <? y)%float = match frank x, frank y with
                   | Some a, Some b => lex_ltb a b
                   | _, _ => false
                   end.
Proof. rewrite FloatAxioms.ltb_spec. apply SFltb_rank. Qed.

Lemma eqb_rank (x y : float) :
  (x =? y)%float = match frank x, frank y with
                   | Some a, Some b => lex_eqb a b
                   | _, _ => false
                   end.
Proof. rewrite FloatAxioms.eqb_spec. apply SFeqb_rank. Qed.

Lemma frank_zero : frank 0%float = Some (0, 0, 0).
Proof. reflexivity. Qed.

End FloatFacts.

(** Rewrites every float comparison into ranks and leaves the rest to
    linear arithmetic. *)
Ltac float_order :=
  rewrite ?FloatFacts.ltb_rank, ?FloatFacts.eqb_rank, ?FloatFacts.frank_zero in *;
  repeat match goal with
         | |- context [FloatOrder.frank ?x] =>
             destruct (FloatOrder.frank x) as [[[? ?] ?]|]
         | H : context [FloatOrder.frank ?x] |- _ =>
             destruct (FloatOrder.frank x) as [[[? ?] ?]|]
         end;
  unfold FloatOrder.lex_ltb, FloatOrder.lex_eqb in *;
  try discriminate; try reflexivity; try lia.

Section FloatOrderLaws.
Local Open Scope float_scope.

Lemma float_ltb_irrefl (x : float) : (x <? x) = false.
Proof. float_order. Qed.

Lemma float_ltb_trans (x y z : float) :
  (x <? y) = true → (y <? z) = true → (x <? z) = true.
Proof. intros H1 H2. float_order. Qed.

Lemma float_ltb_asym (x y : float) : (x <? y) = true → (y <? x) = false.
Proof. intros H1. float_order. Qed.

Lemma float_ltb_neq (x y : float) : (x <? y) = true → (x =? y) = false.
Proof. intros H1. float_order. Qed.
End FloatOrderLaws.

(** ** Division and formatting *)

Section Division.
Local Open Scope float_scope.

Lemma float_of_int_1e9 : Py.float_of_int 1000000000 = Ok 1e9.
Proof. vm_compute. reflexivity. Qed.

Lemma float_of_int_mib : Py.float_of_int (1024 * 1024) = Ok 1048576.
Proof. vm_compute. reflexivity. Qed.

Lemma float_of_int_1024 : Py.float_of_int 1024 = Ok 1024.
Proof. vm_compute. reflexivity. Qed.

Lemma truediv_float_mib (x : float) :
  Py.truediv (PFloat x) (PInt (1024 * 1024)) = Ok (x / 1048576).
Proof. unfold Py.truediv; simpl Py.as_num; cbn -[Py.float_of_int Z.mul PrimFloat.div].
       rewrite float_of_int_mib. reflexivity. Qed.

Lemma truediv_float_1024 (x : float) :
  Py.truediv (PFloat x) (PInt 1024) = Ok (x / 1024).
Proof. unfold Py.truediv; cbn -[Py.float_of_int PrimFloat.div].
       rewrite float_of_int_1024. reflexivity. Qed.

Lemma truediv_float_1e9 (x : float) :
  Py.truediv (PFloat x) (PInt 1000000000) = Ok (x / 1e9).
Proof. unfold Py.truediv; cbn -[Py.float_of_int PrimFloat.div].
       rewrite float_of_int_1e9. reflexivity. Qed.

Lemma truediv_int_float (z : Z) (y : float) :
  Py.truediv (PInt z) (PFloat y) =
    fz ← Py.float_of_int z; Py.float_truediv fz y.
Proof. reflexivity. Qed.

(** The function, one division at a time. *)
Lemma get_throughput_unfold (mean_ns : pyval) (size_bytes : Z) (seconds fsize : float) :
  Py.truediv mean_ns (PInt 1000000000) = Ok seconds →
  Py.float_of_int size_bytes = Ok fsize →
  (seconds =? 0) = false →
  get_throughput mean_ns size_bytes =
    let mb_per_sec := fsize / seconds / 1048576 in
    Ok (mb_per_sec,
        if 1000 <=? mb_per_sec
        then Py.format_fixed 2 (mb_per_sec / 1024) +:+ " GB/s"
        else Py.format_fixed 1 mb_per_sec +:+ " MB/s").
Proof.
  intros Hs Hf Hz. unfold get_throughput. rewrite Hs. cbn [mbind result_bind].
  rewrite truediv_int_float, Hf. cbn [mbind result_bind].
  unfold Py.float_truediv. rewrite Hz. cbn [mbind result_bind].
  rewrite truediv_float_mib. cbn [mbind result_bind]. cbv zeta.
  destruct (1000 <=? _); [rewrite truediv_float_1024|]; reflexivity.
Qed.

Lemma get_throughput_zero_seconds (mean_ns : pyval) (size_bytes : Z) (seconds : float) :
  Py.truediv mean_ns (PInt 1000000000) = Ok seconds →
  (seconds =? 0) = true →
  get_throughput mean_ns size_bytes =
    match Py.float_of_int size_bytes with
    | Ok _ => Raise ZeroDivisionError
    | Raise e => Raise e
    end.
Proof.
  intros Hs Hz. unfold get_throughput. rewrite Hs. cbn [mbind result_bind].
  rewrite truediv_int_float. destruct (Py.float_of_int size_bytes); [|reflexivity].
  cbn [mbind result_bind]. unfold Py.float_truediv. rewrite Hz. reflexivity.
Qed.

Lemma Prim2SF_zero (x : float) :
  (x =? 0) = true → ∃ s, Prim2SF x = S754_zero s.
Proof.
  rewrite FloatAxioms.eqb_spec. change (Prim2SF 0) with (S754_zero false).
  destruct (Prim2SF x) as [s|s| |s m e]; try destruct s; try discriminate; eauto.
Qed.

Lemma zero_div_1e9 (x : float) : (x =? 0) = true → (x / 1e9 =? 0) = true.
Proof.
  intros [s Hx]%Prim2SF_zero.
  rewrite FloatAxioms.eqb_spec, FloatAxioms.div_spec, Hx. reflexivity.
Qed.

(** A zero mean gives zero seconds. *)
Lemma zero_mean_seconds (mean_ns : pyval) :
  Py.is_zero mean_ns = true →
  ∃ seconds, Py.truediv mean_ns (PInt 1000000000) = Ok seconds ∧ (seconds =? 0) = true.
Proof.
  unfold Py.is_zero. destruct mean_ns as [|b|z|f|s|l|d]; simpl; try discriminate.
  - destruct b; [discriminate|]. intros _. exists 0. split; vm_compute; reflexivity.
  - intros ->%Z.eqb_eq. exists 0. split; vm_compute; reflexivity.
  - intros Hf. exists (f / 1e9). split; [apply truediv_float_1e9|by apply zero_div_1e9].
Qed.

End Division.

(** ** Strings *)

Lemma string_app_nil (t : string) : "" +:+ t = t.
Proof. reflexivity. Qed.

Lemma string_app_cons (c : ascii) (s t : string) :
  String c s +:+ t = String c (s +:+ t).
Proof. reflexivity. Qed.

Lemma ends_with_refl (t : string) : Py.ends_with t t = true.
Proof. destruct t; cbn [Py.ends_with]; by rewrite String.eqb_refl. Qed.

Lemma ends_with_app (t s : string) : Py.ends_with t (s +:+ t) = true.
Proof.
  induction s as [|c s IH].
  - rewrite string_app_nil. apply ends_with_refl.
  - rewrite string_app_cons. cbn [Py.ends_with].
    destruct (String.eqb (String c (s +:+ t)) t); [reflexivity|exact IH].
Qed.

Lemma length_app_string (s t : string) :
  String.length (s +:+ t) = (String.length s + String.length t)%nat.
Proof.
  induction s as [|c s IH]; [reflexivity|].
  rewrite string_app_cons. simpl. by rewrite IH.
Qed.

(** A display in MB/s does not end in " GB/s". *)
Lemma mb_not_gb (s : string) : Py.ends_with " GB/s" (s +:+ " MB/s") = false.
Proof.
  induction s as [|c s IH]; [reflexivity|].
  rewrite string_app_cons. cbn [Py.ends_with]. rewrite IH.
  destruct (String.eqb_spec (String c (s +:+ " MB/s")) " GB/s") as [E|_]; [|reflexivity].
  apply (f_equal String.length) in E. simpl in E. rewrite length_app_string in E.
  simpl in E. lia.
Qed.

(** ** Loops *)

Lemma foldM_app {A S} (body : S → A → result S) (s : S) (l1 l2 : list A) :
  foldM body s (l1 ++ l2) = s' ← foldM body s l1; foldM body s' l2.
Proof.
  revert s. induction l1 as [|x l1 IH]; intros s; [reflexivity|].
  simpl. destruct (body s x) as [s'|e]; simpl; [apply IH|reflexivity].
Qed.

(** A loop whose body raises at some element, whatever the state, raises. *)
Lemma foldM_raises {A S} (body : S → A → result S) (l : list A) (x : A) :
  x ∈ l →
  (∀ s, ∃ e, body s x = Raise e) →
  ∀ s, ∃ e, foldM body s l = Raise e.
Proof.
  intros Hin Hx. induction l as [|y l IH]; intros s; [by apply elem_of_nil in Hin|].
  simpl. destruct (body s y) as [s'|e] eqn:Hy; simpl; [|eauto].
  apply elem_of_cons in Hin as [->|Hin]; [|by apply IH].
  destruct (Hx s) as [e He]. congruence.
Qed.

(** ** ThroughputCalculator *)

Section Throughput.
Local Open Scope float_scope.

(** C7: one MiB in one millisecond is exactly 1000.0 MB/s, which meets the
    GB/s threshold and is displayed as "0.98 GB/s", for the mean given as
    a float or as an integer. *)
Theorem throughput_at_threshold :
  get_throughput (PFloat 1000000) 1048576 = Ok (1000, "0.98 GB/s") ∧
  get_throughput (PInt 1000000) 1048576 = Ok (1000, "0.98 GB/s") ∧
  (1000 <=? 1000) = true.
Proof. repeat split; vm_compute; reflexivity. Qed.

(** C3, as stated, fails: at one nanosecond per byte the display is not
    "976.6 MB/s" and the rate is below 954 MB/s. *)
Lemma throughput_1ns_per_byte_not_976 :
  (¬ ∃ mb, get_throughput (PFloat 65536) 65536 = Ok (mb, "976.6 MB/s")) ∧
  (¬ ∃ mb, get_throughput (PInt 65536) 65536 = Ok (mb, "976.6 MB/s")) ∧
  (∃ mb s, get_throughput (PFloat 65536) 65536 = Ok (mb, s) ∧ (mb <? 954) = true).
Proof.
  split; [|split].
  - intros [mb H]. vm_compute in H. discriminate H.
  - intros [mb H]. vm_compute in H. discriminate H.
  - eexists _, _. split; vm_compute; reflexivity.
Qed.

(** C3, amended: 65536 bytes in 65536 ns is 10^9 / 2^20 MB/s up to
    rounding, about 953.67, displayed as "953.7 MB/s". *)
Theorem throughput_1ns_per_byte :
  get_throughput (PFloat 65536) 65536 = Ok (0x1.dcd64ffffffffp+9, "953.7 MB/s") ∧
  get_throughput (PInt 65536) 65536 = Ok (0x1.dcd64ffffffffp+9, "953.7 MB/s") ∧
  (0x1.dcd5c28f5c28fp+9 <? 0x1.dcd64ffffffffp+9) = true ∧
  (0x1.dcd64ffffffffp+9 <? 0x1.dcd70a3d70a3dp+9) = true ∧
  Py.format_fixed 2 0x1.dcd64ffffffffp+9 = "953.67".
Proof. repeat split; vm_compute; reflexivity. Qed.

(** C5, as stated, fails: the smallest positive float, and likewise
    2^-1050, is a mean above zero whose quotient by 1e9 underflows to zero,
    and the function raises ZeroDivisionError instead of returning. *)
Lemma throughput_formula_fails :
  (0 <? 0x1p-1074) = true ∧
  get_throughput (PFloat 0x1p-1074) 64 = Raise ZeroDivisionError ∧
  (0 <? 0x1p-1050) = true ∧
  get_throughput (PFloat 0x1p-1050) 65536 = Raise ZeroDivisionError.
Proof. repeat split; vm_compute; reflexivity. Qed.

(** C5, amended: for every mean, a float or an integer, whose quotient
    [seconds = mean_ns / 1_000_000_000] has a value that is not zero, and
    every [size_bytes] that has a float value, the function returns
    [mb_per_sec = (size_bytes / seconds) / (1024 * 1024)], each division
    rounded to binary64, and the display is the GB/s form,
    [mb_per_sec / 1024] to two decimals, exactly when the unrounded
    [mb_per_sec] is at least 1000, and the MB/s form to one decimal
    otherwise. For a float mean [seconds] is the float quotient, which
    always has a value; for an integer mean it is the quotient of the two
    integers rounded once. *)
Theorem throughput_formula (mean_ns : pyval) (size_bytes : Z) (seconds fsize : float) :
  Py.truediv mean_ns (PInt 1000000000) = Ok seconds →
  Py.float_of_int size_bytes = Ok fsize →
  (seconds =? 0) = false →
  let mb_per_sec := fsize / seconds / 1048576 in
  (∀ f, mean_ns = PFloat f → seconds = f / 1e9) ∧
  (∀ z, mean_ns = PInt z →
     SF2Prim (SFdiv prec emax (Py.raw_int z) (Py.raw_int 1000000000)) = seconds) ∧
  ∃ display,
    get_throughput mean_ns size_bytes = Ok (mb_per_sec, display) ∧
    ((1000 <=? mb_per_sec) = true →
       display = Py.format_fixed 2 (mb_per_sec / 1024) +:+ " GB/s") ∧
    ((1000 <=? mb_per_sec) = false →
       display = Py.format_fixed 1 mb_per_sec +:+ " MB/s") ∧
    Py.ends_with " GB/s" display = (1000 <=? mb_per_sec).
Proof.
  intros Hs Hf Hz mb_per_sec. split; [|split].
  - intros f ->. rewrite truediv_float_1e9 in Hs. by injection Hs.
  - intros z ->. unfold Py.truediv in Hs. cbn [Py.as_num] in Hs.
    unfold Py.int_truediv in Hs. cbn [Z.eqb] in Hs.
    destruct (Py.is_inf _); [discriminate|]. by injection Hs.
  - rewrite (get_throughput_unfold _ _ _ _ Hs Hf Hz).
    cbv zeta. fold mb_per_sec. eexists. split; [reflexivity|].
    destruct (1000 <=? mb_per_sec); repeat split; try discriminate; try reflexivity.
    + apply ends_with_app.
    + apply mb_not_gb.
Qed.

Lemma throughput_formula_witness :
  (∃ display,
     get_throughput (PFloat 1000) 65536 = Ok (65536 / (1000 / 1e9) / 1048576, display) ∧
     Py.ends_with " GB/s" display = true) ∧
  (∃ display,
     get_throughput (PInt 1000) 65536 = Ok (65536 / 0x1.0c6f7a0b5ed8dp-20 / 1048576, display) ∧
     Py.ends_with " GB/s" display = true) ∧
  (∃ display,
     get_throughput (PInt 3) 64 = Ok (64 / 0x1.9c511dc3a41dfp-29 / 1048576, display) ∧
     Py.ends_with " GB/s" display = true).
Proof.
  split; [|split].
  - destruct (throughput_formula (PFloat 1000) 65536 (1000 / 1e9) 65536)
      as (_ & _ & display & H & _ & _ & E);
      [vm_compute; reflexivity | vm_compute; reflexivity | vm_compute; reflexivity |].
    exists display. split; [exact H|]. rewrite E. vm_compute. reflexivity.
  - destruct (throughput_formula (PInt 1000) 65536 0x1.0c6f7a0b5ed8dp-20 65536)
      as (_ & _ & display & H & _ & _ & E);
      [vm_compute; reflexivity | vm_compute; reflexivity | vm_compute; reflexivity |].
    exists display. split; [exact H|]. rewrite E. vm_compute. reflexivity.
  - destruct (throughput_formula (PInt 3) 64 0x1.9c511dc3a41dfp-29 64)
      as (_ & _ & display & H & _ & _ & E);
      [vm_compute; reflexivity | vm_compute; reflexivity | vm_compute; reflexivity |].
    exists display. split; [exact H|]. rewrite E. vm_compute. reflexivity.
Defined.

End Throughput.

(** ** A zero mean *)

Lemma float_of_int_sizes (size : Z) :
  size ∈ sizes → ∃ fsize, Py.float_of_int size = Ok fsize.
Proof.
  unfold sizes. intros H.
  repeat (apply elem_of_cons in H as [->|H]; [eexists; vm_compute; reflexivity|]).
  by apply elem_of_nil in H.
Qed.

Lemma summarize_size_zero_mean fs path_dir path results size est :
  size ∈ sizes →
  Fs.exists_ fs (path_dir </> Py.str_of_int size) = true →
  parse_estimates fs (path_dir </> Py.str_of_int size) = Ok (Some est) →
  Py.is_zero (est_mean_ns est) = true →
  summarize_size fs path_dir path results size = Raise ZeroDivisionError.
Proof.
  intros Hsize Hex Hparse Hzero. unfold summarize_size. rewrite Hex, Hparse.
  cbn [mbind result_bind].
  destruct (zero_mean_seconds _ Hzero) as (seconds & Hs & Hz).
  rewrite (get_throughput_zero_seconds _ _ _ Hs Hz).
  destruct (float_of_int_sizes _ Hsize) as [fsize ->]. reflexivity.
Qed.

(** C10: the throughput function is partial. At a mean of zero (an integer
    or a float of either sign) it never returns: it raises
    ZeroDivisionError for every size that has a float value, and the
    conversion error of the size itself otherwise. So a result requires a
    non-zero mean, and a group holding a parsed record with a zero mean
    makes the aggregation raise. *)
Theorem zero_mean_raises :
  (∀ mean_ns size_bytes,
     Py.is_zero mean_ns = true →
     get_throughput mean_ns size_bytes =
       match Py.float_of_int size_bytes with
       | Ok _ => Raise ZeroDivisionError
       | Raise e => Raise e
       end) ∧
  (∀ mean_ns size_bytes r,
     get_throughput mean_ns size_bytes = Ok r → Py.is_zero mean_ns = false) ∧
  (∀ fs group_dir path size est,
     path ∈ paths → size ∈ sizes →
     Fs.exists_ fs (group_dir </> path) = true →
     Fs.exists_ fs (group_dir </> path </> Py.str_of_int size) = true →
     parse_estimates fs (group_dir </> path </> Py.str_of_int size) = Ok (Some est) →
     Py.is_zero (est_mean_ns est) = true →
     ∃ e, summarize_dictionary fs group_dir = Raise e).
Proof.
  assert (∀ mean_ns size_bytes,
     Py.is_zero mean_ns = true →
     get_throughput mean_ns size_bytes =
       match Py.float_of_int size_bytes with
       | Ok _ => Raise ZeroDivisionError
       | Raise e => Raise e
       end) as Hraise.
  { intros mean_ns size_bytes Hzero.
    destruct (zero_mean_seconds _ Hzero) as (seconds & Hs & Hz).
    by apply get_throughput_zero_seconds with seconds. }
  split; [exact Hraise|split].
  - intros mean_ns size_bytes r Hr.
    destruct (Py.is_zero mean_ns) eqn:Hzero; [|reflexivity].
    rewrite (Hraise _ size_bytes Hzero) in Hr.
    destruct (Py.float_of_int size_bytes); discriminate.
  - intros fs group_dir path size est Hpath Hsize Hdir Hsdir Hparse Hzero.
    unfold summarize_dictionary. apply foldM_raises with path; [exact Hpath|].
    intros results. unfold summarize_path. rewrite Hdir. cbn [negb].
    apply foldM_raises with size; [exact Hsize|].
    intros results'. exists ZeroDivisionError.
    by apply summarize_size_zero_mean with est.
Qed.

Lemma zero_mean_raises_witness :
  get_throughput (PInt 0) 65536 = Raise ZeroDivisionError ∧
  get_throughput (PFloat (-0)) 64 = Raise ZeroDivisionError ∧
  (∃ e, summarize_dictionary fs_zero_mean (CRITERION_DIR </> "encode") = Raise e) ∧
  print_full_table fs_zero_mean = Io [] (Raise ZeroDivisionError) ∧
  exit_status (print_full_table fs_zero_mean) = 1.
Proof.
  destruct zero_mean_raises as (H1 & _ & H3).
  split; [exact (H1 (PInt 0) 65536 eq_refl)|].
  split; [exact (H1 (PFloat (-0)) 64 eq_refl)|].
  split; [|split; vm_compute; reflexivity].
  apply (H3 fs_zero_mean (CRITERION_DIR </> "encode") "Scalar" 65536
            (Estimates (PFloat 0) (PFloat 0)));
    try (vm_compute; reflexivity).
  - unfold paths. repeat constructor.
  - unfold sizes. repeat constructor.
Defined.

(** ** EstimateReader *)

Section EstimateReader.
Variable fs : node.
Variable p : path.
Let file : path := p </> "new" </> "estimates.json".

Lemma parse_estimates_absent :
  Fs.open fs file = Raise FileNotFoundError → parse_estimates fs p = Ok None.
Proof. unfold parse_estimates, read_estimates. fold file. by intros ->. Qed.

Lemma parse_estimates_not_json :
  Fs.open fs file = Ok NotJson → parse_estimates fs p = Ok None.
Proof. unfold parse_estimates, read_estimates. fold file. by intros ->. Qed.

Lemma getitem_raises (v : pyval) (k : string) (e : exn) :
  Py.getitem v k = Raise e → e = KeyError ∨ e = TypeError.
Proof.
  destruct v as [| | | | | |d]; simpl; try (intros [= <-]; by right).
  destruct (d !! k); [discriminate|]. intros [= <-]. by left.
Qed.

(** What the reader does with a JSON document. *)
Lemma parse_estimates_json (data : pyval) :
  Fs.open fs file = Ok (Json data) →
  parse_estimates fs p =
    match Py.getitem data "mean" ≫= (λ v, Py.getitem v "point_estimate") with
    | Ok x =>
        match Py.getitem data "std_dev" ≫= (λ v, Py.getitem v "point_estimate") with
        | Ok y => Ok (Some (Estimates x y))
        | Raise KeyError => Ok None
        | Raise e => Raise e
        end
    | Raise KeyError => Ok None
    | Raise e => Raise e
    end.
Proof.
  unfold parse_estimates, read_estimates. fold file. intros ->.
  cbn [mbind result_bind Fs.json_load].
  destruct (Py.getitem data "mean") as [mean|e] eqn:H1; cbn [mbind result_bind];
    [|by apply getitem_raises in H1 as [->| ->]].
  destruct (Py.getitem mean "point_estimate") as [x|e] eqn:H2; cbn [mbind result_bind];
    [|by apply getitem_raises in H2 as [->| ->]].
  destruct (Py.getitem data "std_dev") as [sd|e] eqn:H3; cbn [mbind result_bind];
    [|by apply getitem_raises in H3 as [->| ->]].
  destruct (Py.getitem sd "point_estimate") as [y|e] eqn:H4; cbn [mbind result_bind];
    [reflexivity|by apply getitem_raises in H4 as [->| ->]].
Qed.

Lemma open_raises (q : path) (e : exn) :
  Fs.open fs q = Raise e →
  e = FileNotFoundError ∨ e = NotADirectoryError ∨ e = IsADirectoryError.
Proof.
  unfold Fs.open. destruct (Fs.walk fs q) as [[c|es]|[]]; intros [= <-]; auto.
Qed.

Lemma read_estimates_raises (e : exn) :
  read_estimates fs p = Raise e →
  e ∈ [FileNotFoundError; NotADirectoryError; IsADirectoryError;
       UnicodeDecodeError; JSONDecodeError; ValueError; RecursionError;
       KeyError; TypeError].
Proof.
  unfold read_estimates. fold file.
  destruct (Fs.open fs file) as [c|e0] eqn:Hopen; cbn [mbind result_bind].
  { destruct c as [| | | |data]; cbn [mbind result_bind Fs.json_load];
      try (intros [= <-]; set_solver).
    destruct (Py.getitem data "mean") as [mean|e1] eqn:H1; cbn [mbind result_bind];
      [|intros [= <-]; apply getitem_raises in H1 as [->| ->]; set_solver].
    destruct (Py.getitem mean "point_estimate") as [x|e2] eqn:H2; cbn [mbind result_bind];
      [|intros [= <-]; apply getitem_raises in H2 as [->| ->]; set_solver].
    destruct (Py.getitem data "std_dev") as [sd|e3] eqn:H3; cbn [mbind result_bind];
      [|intros [= <-]; apply getitem_raises in H3 as [->| ->]; set_solver].
    destruct (Py.getitem sd "point_estimate") as [y|e4] eqn:H4; cbn [mbind result_bind];
      [discriminate|intros [= <-]; apply getitem_raises in H4 as [->| ->]; set_solver]. }
  intros [= <-]. apply open_raises in Hopen as [->|[->| ->]]; set_solver.
Qed.

Lemma parse_estimates_raises (e : exn) :
  parse_estimates fs p = Raise e →
  e ∈ [NotADirectoryError; IsADirectoryError; UnicodeDecodeError; ValueError;
       RecursionError; TypeError].
Proof.
  unfold parse_estimates.
  destruct (read_estimates fs p) as [r|e0] eqn:Hread; [discriminate|].
  apply read_estimates_raises in Hread.
  destruct e0; try discriminate; intros [= <-]; set_solver.
Qed.

End EstimateReader.

(** C4, as stated, fails: a record whose mean is a number instead of an
    object, or whose document is a list, makes the reader raise TypeError. *)
Lemma parse_estimates_wrong_shape_raises :
  parse_estimates fs_mean_is_number [] = Raise TypeError ∧
  parse_estimates fs_document_is_list [] = Raise TypeError.
Proof. split; vm_compute; reflexivity. Qed.

(** C4, amended: an absent location, a text that is not JSON and a missing
    required key each give the absence value; a document with both fields
    gives the estimate; and FileNotFoundError, JSONDecodeError and KeyError
    never reach the caller. *)
Theorem parse_estimates_failures (fs : node) (p : path) :
  let file := p </> "new" </> "estimates.json" in
  (Fs.open fs file = Raise FileNotFoundError → parse_estimates fs p = Ok None) ∧
  (Fs.open fs file = Ok NotJson → parse_estimates fs p = Ok None) ∧
  (∀ d, Fs.open fs file = Ok (Json (PDict d)) →
        d !! "mean" = None → parse_estimates fs p = Ok None) ∧
  (∀ d m, Fs.open fs file = Ok (Json (PDict d)) →
        d !! "mean" = Some (PDict m) → m !! "point_estimate" = None →
        parse_estimates fs p = Ok None) ∧
  (∀ d m x, Fs.open fs file = Ok (Json (PDict d)) →
        d !! "mean" = Some (PDict m) → m !! "point_estimate" = Some x →
        d !! "std_dev" = None → parse_estimates fs p = Ok None) ∧
  (∀ d m x sd, Fs.open fs file = Ok (Json (PDict d)) →
        d !! "mean" = Some (PDict m) → m !! "point_estimate" = Some x →
        d !! "std_dev" = Some (PDict sd) → sd !! "point_estimate" = None →
        parse_estimates fs p = Ok None) ∧
  (∀ d m x sd y, Fs.open fs file = Ok (Json (PDict d)) →
        d !! "mean" = Some (PDict m) → m !! "point_estimate" = Some x →
        d !! "std_dev" = Some (PDict sd) → sd !! "point_estimate" = Some y →
        parse_estimates fs p = Ok (Some (Estimates x y))) ∧
  (∀ e, parse_estimates fs p = Raise e →
        e ≠ FileNotFoundError ∧ e ≠ JSONDecodeError ∧ e ≠ KeyError).
Proof.
  intros file. repeat split.
  - apply parse_estimates_absent.
  - apply parse_estimates_not_json.
  - intros d Hopen Hmean. rewrite (parse_estimates_json _ _ _ Hopen).
    simpl. by rewrite Hmean.
  - intros d m Hopen Hmean Hpe. rewrite (parse_estimates_json _ _ _ Hopen).
    simpl. rewrite Hmean. simpl. by rewrite Hpe.
  - intros d m x Hopen Hmean Hpe Hsd. rewrite (parse_estimates_json _ _ _ Hopen).
    simpl. rewrite Hmean. simpl. rewrite Hpe, Hsd. reflexivity.
  - intros d m x sd Hopen Hmean Hpe Hsd Hspe.
    rewrite (parse_estimates_json _ _ _ Hopen).
    simpl. rewrite Hmean. simpl. rewrite Hpe, Hsd. simpl. by rewrite Hspe.
  - intros d m x sd y Hopen Hmean Hpe Hsd Hspe.
    rewrite (parse_estimates_json _ _ _ Hopen).
    simpl. rewrite Hmean. simpl. rewrite Hpe, Hsd. simpl. by rewrite Hspe.
  - apply parse_estimates_raises in H. set_solver.
  - apply parse_estimates_raises in H. set_solver.
  - apply parse_estimates_raises in H. set_solver.
Qed.

(** ** GroupAggregator *)

Lemma measured_unique fs path_dir size c1 c2 :
  measured fs path_dir size c1 → measured fs path_dir size c2 → c1 = c2.
Proof.
  intros (_ & e1 & m1 & d1 & Hp1 & Hg1 & ->) (_ & e2 & m2 & d2 & Hp2 & Hg2 & ->).
  rewrite Hp1 in Hp2. injection Hp2 as <-. rewrite Hg1 in Hg2. by injection Hg2 as <- <-.
Qed.

(** One pass of the size loop either writes the measured cell or leaves
    the results as they are. *)
Lemma summarize_size_ok fs path_dir path results size results' :
  summarize_size fs path_dir path results size = Ok results' →
  (∃ c, measured fs path_dir size c ∧
        results' = <[path := <[size := c]> (default ∅ (results !! path))]> results) ∨
  ((∀ c, ¬ measured fs path_dir size c) ∧ results' = results).
Proof.
  unfold summarize_size, measured.
  destruct (Fs.exists_ fs (path_dir </> Py.str_of_int size)) eqn:Hex;
    [|intros [= <-]; right; split; [intros c [? _]; discriminate|reflexivity]].
  destruct (parse_estimates fs (path_dir </> Py.str_of_int size)) as [[est|]|e] eqn:Hp;
    cbn [mbind result_bind]; [| |discriminate].
  - destruct (get_throughput (est_mean_ns est) size) as [[mb display]|e] eqn:Hg;
      cbn [mbind result_bind]; [|discriminate].
    intros [= <-]. left. eexists. split; [|reflexivity].
    split; [reflexivity|]. by exists est, mb, display.
  - intros [= <-]. right. split; [|reflexivity].
    intros c (_ & est & mb & display & [=] & _).
Qed.

Lemma summarize_sizes_ok fs path_dir path (szs : list Z) :
  ∀ results results' m0,
    foldM (summarize_size fs path_dir path) results szs = Ok results' →
    results !! path = Some m0 →
    (∀ q, q ≠ path → results' !! q = results !! q) ∧
    ∃ m, results' !! path = Some m ∧
         ∀ size c, m !! size = Some c ↔
           (size ∈ szs ∧ measured fs path_dir size c) ∨
           (¬ (size ∈ szs ∧ ∃ c', measured fs path_dir size c') ∧ m0 !! size = Some c).
Proof.
  induction szs as [|x l IH]; intros results results' m0 Hfold Hm0.
  - injection Hfold as <-. split; [done|]. exists m0. split; [done|].
    intros size c. split; [intros H; right; split; [|done]|].
    + intros [[]%elem_of_nil _].
    + intros [[[]%elem_of_nil _]|[_ H]]. done.
  - simpl in Hfold.
    destruct (summarize_size fs path_dir path results x) as [r1|e] eqn:Hx; [|discriminate].
    cbn [mbind result_bind] in Hfold.
    apply summarize_size_ok in Hx as [(cx & Hcx & ->)|[Hnone ->]].
    + rewrite Hm0 in Hfold. cbn [default] in Hfold.
      destruct (IH _ _ (<[x := cx]> m0) Hfold) as (Hother & m & Hm & Hcells).
      { apply lookup_insert_eq. }
      split.
      { intros q Hq. rewrite Hother by done. by rewrite lookup_insert_ne. }
      exists m. split; [done|]. intros size c. rewrite Hcells. split.
      * intros [[Hin Hc]|[Hnot Hc]].
        -- left. split; [by apply list_elem_of_further|done].
        -- destruct (decide (size = x)) as [->|Hne].
           ++ rewrite lookup_insert_eq in Hc. injection Hc as <-.
              left. split; [apply list_elem_of_here|done].
           ++ rewrite lookup_insert_ne in Hc by done. right. split; [|done].
              intros [[->|Hin]%elem_of_cons Hex]; [done|]. apply Hnot. by split.
      * intros [[[->|Hin]%elem_of_cons Hc]|[Hnot Hc]].
        -- destruct (decide (x ∈ l)) as [Hin|Hnin]; [left; by split|].
           right. split; [intros [? _]; done|].
           rewrite lookup_insert_eq. f_equal. by apply measured_unique with fs path_dir x.
        -- left. by split.
        -- right. split.
           ++ intros [Hin Hex]. apply Hnot. split; [by apply list_elem_of_further|done].
           ++ rewrite lookup_insert_ne; [done|].
              intros <-. apply Hnot. split; [apply list_elem_of_here|by exists cx].
    + destruct (IH _ _ m0 Hfold Hm0) as (Hother & m & Hm & Hcells).
      split; [done|]. exists m. split; [done|]. intros size c. rewrite Hcells. split.
      * intros [[Hin Hc]|[Hnot Hc]].
        -- left. split; [by apply list_elem_of_further|done].
        -- right. split; [|done].
           intros [[->|Hin]%elem_of_cons [c' Hc']]; [by apply (Hnone c')|].
           apply Hnot. split; [done|by exists c'].
      * intros [[[->|Hin]%elem_of_cons Hc]|[Hnot Hc]].
        -- by destruct (Hnone c).
        -- left. by split.
        -- right. split; [|done].
           intros [Hin Hex]. apply Hnot. split; [by apply list_elem_of_further|done].
Qed.

Lemma summarize_paths_ok fs group_dir (ps : list string) :
  ∀ results results',
    foldM (summarize_path fs group_dir) results ps = Ok results' →
    ∀ p,
      (p ∈ ps ∧ Fs.exists_ fs (group_dir </> p) = true →
       ∃ m, results' !! p = Some m ∧
            ∀ size c, m !! size = Some c ↔
              size ∈ sizes ∧ measured fs (group_dir </> p) size c) ∧
      (¬ (p ∈ ps ∧ Fs.exists_ fs (group_dir </> p) = true) →
       results' !! p = results !! p).
Proof.
  induction ps as [|x l IH]; intros results results' Hfold p.
  - injection Hfold as <-. split; [intros [[]%elem_of_nil _]|done].
  - simpl in Hfold.
    destruct (summarize_path fs group_dir results x) as [r1|e] eqn:Hx; [|discriminate].
    cbn [mbind result_bind] in Hfold.
    destruct (IH _ _ Hfold p) as [IHin IHout].
    assert (∀ q, ¬ (q = x ∧ Fs.exists_ fs (group_dir </> q) = true) →
                 r1 !! q = results !! q) as Hkeep.
    { intros q Hq. unfold summarize_path in Hx.
      destruct (Fs.exists_ fs (group_dir </> x)) eqn:Hex; cbn [negb] in Hx;
        [|by injection Hx as <-].
      destruct (summarize_sizes_ok _ _ _ _ _ _ ∅ Hx) as [Hother _];
        [apply lookup_insert_eq|].
      assert (q ≠ x) as Hne by (intros ->; by apply Hq).
      rewrite Hother by done. by rewrite lookup_insert_ne. }
    split.
    + intros [Hin Hex]. destruct (decide (p ∈ l)) as [Hl|Hl]; [by apply IHin|].
      apply elem_of_cons in Hin as [->|Hin]; [|done].
      rewrite IHout by (intros [? _]; done).
      unfold summarize_path in Hx. rewrite Hex in Hx. cbn [negb] in Hx.
      destruct (summarize_sizes_ok _ _ _ _ _ _ ∅ Hx) as (_ & m & Hm & Hcells);
        [apply lookup_insert_eq|].
      exists m. split; [done|]. intros size c. rewrite Hcells. split.
      * intros [H|[_ H]]; [done|by rewrite lookup_empty in H].
      * intros H. by left.
    + intros Hnot. rewrite IHout, Hkeep; [done| |].
      * intros [-> Hex]. apply Hnot. split; [apply list_elem_of_here|done].
      * intros [Hin Hex]. apply Hnot. split; [by apply list_elem_of_further|done].
Qed.

(** C2, as stated, fails: a variant directory that holds no parsed record
    is still a key of the results, bound to an empty mapping. *)
Lemma unparsed_variant_is_a_key :
  Fs.exists_ fs_unparsed_variant (CRITERION_DIR </> "encode" </> "Scalar" </> "65536") = true ∧
  parse_estimates fs_unparsed_variant
    (CRITERION_DIR </> "encode" </> "Scalar" </> "65536") = Ok None ∧
  summarize_dictionary fs_unparsed_variant (CRITERION_DIR </> "encode")
    = Ok {[ "Scalar" := ∅ ]}.
Proof. repeat split; vm_compute; reflexivity. Qed.

(** C2, amended: a variant key is present exactly when the variant is one
    of the three and its location exists, whether or not any record under
    it parsed; a size key is present under a variant exactly when the
    variant's and the size's locations exist, the reader returned an
    estimate and its throughput was computed. *)
Theorem summarize_dictionary_keys fs group_dir results :
  summarize_dictionary fs group_dir = Ok results →
  (∀ path, is_Some (results !! path) ↔
     path ∈ paths ∧ Fs.exists_ fs (group_dir </> path) = true) ∧
  (∀ path size c, cell results path size = Some c ↔
     path ∈ paths ∧ Fs.exists_ fs (group_dir </> path) = true ∧
     size ∈ sizes ∧ measured fs (group_dir </> path) size c).
Proof.
  intros Hsum. unfold summarize_dictionary in Hsum.
  pose proof (summarize_paths_ok _ _ _ _ _ Hsum) as H.
  split.
  - intros path. destruct (H path) as [Hin Hout]. split.
    + intros Hsome.
      destruct (decide (path ∈ paths)) as [Hp|Hp];
        [destruct (Fs.exists_ fs (group_dir </> path)) eqn:Hex; [done|]|].
      * rewrite Hout, lookup_empty in Hsome by (intros [_ ?]; congruence). by destruct Hsome.
      * rewrite Hout, lookup_empty in Hsome by (intros [? _]; done). by destruct Hsome.
    + intros Hp. destruct (Hin Hp) as (m & -> & _). by eexists.
  - intros path size c. destruct (H path) as [Hin Hout]. unfold cell. split.
    + intros Hc. destruct (results !! path) as [m|] eqn:Hm; [|discriminate].
      cbn in Hc.
      destruct (decide (path ∈ paths)) as [Hp|Hp];
        [destruct (Fs.exists_ fs (group_dir </> path)) eqn:Hex|].
      * destruct Hin as (m' & Hm' & Hcells); [done|].
        injection Hm' as <-. apply Hcells in Hc as [? ?]. done.
      * rewrite lookup_empty in Hout. by discriminate Hout; intros [_ ?].
      * rewrite lookup_empty in Hout. by discriminate Hout; intros [? _].
    + intros (Hp & Hex & Hsize & Hc). destruct Hin as (m & -> & Hcells); [done|].
      cbn. apply Hcells. done.
Qed.

Lemma summarize_dictionary_keys_witness :
  is_Some (({[ "Scalar" := ∅ ]} : group_results) !! "Scalar") ↔
  "Scalar" ∈ paths ∧
  Fs.exists_ fs_unparsed_variant (CRITERION_DIR </> "encode" </> "Scalar") = true.
Proof.
  apply (summarize_dictionary_keys fs_unparsed_variant (CRITERION_DIR </> "encode")).
  vm_compute. reflexivity.
Defined.

(** ** Compact mode: the best variant *)

Lemma before_cases (q p : string) :
  before q p →
  (q = "Scalar" ∧ p = "LUT") ∨ (q = "Scalar" ∧ p = "Specialized") ∨
  (q = "LUT" ∧ p = "Specialized").
Proof.
  intros (i & j & Hi & Hj & Hlt). unfold paths in *.
  destruct i as [|[|[|i]]], j as [|[|[|j]]]; simplify_eq/=; try lia; auto.
Qed.

Ltac split_paths H :=
  unfold paths in H;
  repeat (apply elem_of_cons in H as [->|H]); [..|by apply elem_of_nil in H].

(** Decides the comparisons of the scan, first one first. *)
Ltac scan_cases :=
  repeat match goal with
         | |- context [if PrimFloat.ltb ?a ?b then _ else _] =>
             lazymatch a with
             | context [best_throughput] => fail
             | _ => destruct (PrimFloat.ltb a b) eqn:?;
                    cbn [best_path best_throughput row]
             end
         end.

Section CompactBest.
Local Open Scope float_scope.
Variable name : string.
Variable results : group_results.

Let best : option string := best_path (compact_scan name results).

Lemma compact_best_present (p : string) :
  best = Some p →
  ∃ c, cell results p 65536 = Some c ∧ (0 <? throughput_mbps c) = true ∧
       (∀ q cq, q ∈ paths → cell results q 65536 = Some cq →
                (throughput_mbps c <? throughput_mbps cq) = false) ∧
       (∀ q cq, before q p → cell results q 65536 = Some cq →
                (throughput_mbps cq =? throughput_mbps c) = false).
Proof.
  unfold best, compact_scan, paths. cbn [foldl]. unfold compact_step.
  destruct (cell results "Scalar" 65536) as [cs|] eqn:Hs;
  destruct (cell results "LUT" 65536) as [cl|] eqn:Hl;
  destruct (cell results "Specialized" 65536) as [cp|] eqn:Hp;
  cbn [best_path best_throughput row];
  scan_cases;
  intros [= <-];
  (eexists; split; [eassumption|]; split; [float_order|]; split;
   [ intros q cq Hq Hc; split_paths Hq; simplify_eq; float_order
   | intros q cq [[-> [=]]|[[-> [=]]|[-> [=]]]]%before_cases Hc;
     simplify_eq; float_order ]).
Qed.

Lemma compact_best_absent :
  best = None ↔
  ∀ p c, p ∈ paths → cell results p 65536 = Some c →
         (0 <? throughput_mbps c) = false.
Proof.
  unfold best, compact_scan, paths. cbn [foldl]. unfold compact_step. split.
  - destruct (cell results "Scalar" 65536) as [cs|] eqn:Hs;
    destruct (cell results "LUT" 65536) as [cl|] eqn:Hl;
    destruct (cell results "Specialized" 65536) as [cp|] eqn:Hp;
    cbn [best_path best_throughput row];
    scan_cases;
    intros [=]; intros p c Hin Hc; split_paths Hin; simplify_eq; float_order.
  - intros Hall.
    destruct (cell results "Scalar" 65536) as [cs|] eqn:Hs;
    destruct (cell results "LUT" 65536) as [cl|] eqn:Hl;
    destruct (cell results "Specialized" 65536) as [cp|] eqn:Hp;
    cbn [best_path best_throughput row];
    try pose proof (Hall "Scalar" _ ltac:(repeat constructor) Hs);
    try pose proof (Hall "LUT" _ ltac:(repeat constructor) Hl);
    try pose proof (Hall "Specialized" _ ltac:(repeat constructor) Hp);
    scan_cases; first [reflexivity | float_order].
Qed.

Lemma compact_best_scalar_lut_tie (cs cl : entry) :
  cell results "Scalar" 65536 = Some cs →
  cell results "LUT" 65536 = Some cl →
  (throughput_mbps cs =? throughput_mbps cl) = true →
  (0 <? throughput_mbps cs) = true →
  (∀ cp, cell results "Specialized" 65536 = Some cp →
         (throughput_mbps cp <? throughput_mbps cs) = true) →
  best = Some "Scalar".
Proof.
  intros Hs Hl Heq Hpos Hlow.
  unfold best, compact_scan, paths. cbn [foldl]. unfold compact_step.
  rewrite Hs, Hl. cbn [best_path best_throughput row]. rewrite Hpos.
  cbn [best_path best_throughput row].
  assert ((throughput_mbps cs <? throughput_mbps cl) = false) as -> by float_order.
  cbn [best_path best_throughput row].
  destruct (cell results "Specialized" 65536) as [cp|] eqn:Hp; [|reflexivity].
  cbn [best_path best_throughput row].
  assert ((throughput_mbps cs <? throughput_mbps cp) = false) as ->; [|reflexivity].
  specialize (Hlow cp eq_refl). float_order.
Qed.

End CompactBest.

(** C6, as stated, fails: with Scalar and LUT at the same throughput at
    64 KB and Specialized absent, no best variant is reported when that
    throughput is not above zero (here both means are -1000 ns). *)
Lemma tie_below_zero_has_no_best :
  ∃ results cs cl,
    summarize_dictionary fs_negative_means (CRITERION_DIR </> "encode") = Ok results ∧
    cell results "Scalar" 65536 = Some cs ∧
    cell results "LUT" 65536 = Some cl ∧
    cell results "Specialized" 65536 = None ∧
    (throughput_mbps cs =? throughput_mbps cl)%float = true ∧
    best_path (compact_scan "encode" results) = None ∧
    compact_row "encode" results =
      Py.ljust 25 "encode" +:+ " " +:+ Py.ljust 12 "-62500.0 MB/s" +:+ " "
        +:+ Py.ljust 12 "-62500.0 MB/s" +:+ " " +:+ Py.ljust 12 "-".
Proof.
  eexists _, _, _. repeat split; vm_compute; reflexivity.
Qed.

(** C6, amended: the variants are examined in the order Scalar, LUT,
    Specialized at size 65536 and the best, which starts at throughput 0,
    is replaced only on a strictly greater throughput. So the variant
    reported is present, has a throughput above zero that no present
    variant exceeds, and no variant enumerated before it has an equal
    throughput; none is reported exactly when no present variant is above
    zero; and when Scalar and LUT are equal and above zero and Specialized
    is absent or lower, the best is Scalar. *)
Theorem compact_best_tie_break (name : string) (results : group_results) :
  let best := best_path (compact_scan name results) in
  (∀ p, best = Some p →
     ∃ c, cell results p 65536 = Some c ∧
          (0 <? throughput_mbps c)%float = true ∧
          (∀ q cq, q ∈ paths → cell results q 65536 = Some cq →
                   (throughput_mbps c <? throughput_mbps cq)%float = false) ∧
          (∀ q cq, before q p → cell results q 65536 = Some cq →
                   (throughput_mbps cq =? throughput_mbps c)%float = false)) ∧
  (best = None ↔
     ∀ p c, p ∈ paths → cell results p 65536 = Some c →
            (0 <? throughput_mbps c)%float = false) ∧
  (∀ cs cl,
     cell results "Scalar" 65536 = Some cs →
     cell results "LUT" 65536 = Some cl →
     (throughput_mbps cs =? throughput_mbps cl)%float = true →
     (0 <? throughput_mbps cs)%float = true →
     (∀ cp, cell results "Specialized" 65536 = Some cp →
            (throughput_mbps cp <? throughput_mbps cs)%float = true) →
     best = Some "Scalar").
Proof.
  intros best. split; [|split].
  - apply compact_best_present.
  - apply compact_best_absent.
  - apply compact_best_scalar_lut_tie.
Qed.

Lemma compact_best_tie_break_witness :
  best_path (compact_scan "encode" (results_of fs_tie "encode")) = Some "Scalar".
Proof.
  pose (cs := Entry (PFloat 1000) (PFloat 1) "61.04 GB/s" 62500).
  apply (proj2 (proj2 (compact_best_tie_break "encode" (results_of fs_tie "encode"))) cs cs);
    try (vm_compute; reflexivity).
  intros cp Hcp. vm_compute in Hcp. injection Hcp as <-. vm_compute. reflexivity.
Defined.

(** ** Printing *)

Lemma io_bind_ok {A B} (m : io A) (f : A → io B) (a : A) :
  outcome m = Ok a →
  m ≫= f = Io (printed m ++ printed (f a)) (outcome (f a)).
Proof. unfold mbind, io_bind. by intros ->. Qed.

Lemma io_bind_raise {A B} (m : io A) (f : A → io B) (e : exn) :
  outcome m = Raise e → m ≫= f = Io (printed m) (Raise e).
Proof. unfold mbind, io_bind. by intros ->. Qed.

Lemma io_eta {A} (m : io A) : Io (printed m) (outcome m) = m.
Proof. by destruct m. Qed.

Lemma for_each_print (l : list string) : for_each l print = Io l (Ok tt).
Proof.
  induction l as [|x l IH]; [reflexivity|].
  cbn [for_each]. rewrite (io_bind_ok _ _ tt) by reflexivity. by rewrite IH.
Qed.

Lemma for_each_compact_rows (items : list (string * group_results)) :
  for_each items print_compact_row = Io (compact_rows items) (Ok tt).
Proof.
  induction items as [|item items IH]; [reflexivity|].
  cbn [for_each]. unfold compact_rows. rewrite filter_cons.
  change (print_compact_row item) with
    (if is_empty item.2 then mret tt else print (compact_row item.1 item.2)).
  destruct (is_empty item.2) eqn:Hempty.
  - rewrite (io_bind_ok _ _ tt) by reflexivity. rewrite IH.
    destruct (decide (true = false)); [discriminate|]. reflexivity.
  - rewrite (io_bind_ok _ _ tt) by reflexivity. rewrite IH.
    destruct (decide (false = false)); [|done]. reflexivity.
Qed.

Lemma is_empty_false (results : group_results) :
  is_empty results = false ↔ results ≠ ∅.
Proof.
  unfold is_empty. rewrite bool_decide_eq_false. by rewrite map_size_empty_iff.
Qed.

Lemma print_full_table_ok fs groups all :
  Fs.exists_ fs CRITERION_DIR = true →
  list_groups fs = Ok groups →
  foldM (collect_group fs) ∅ groups = Ok all →
  print_full_table fs =
    Io (table_header ++ compact_rows (sorted_items all) ++ [rule "-" 90]) (Ok tt).
Proof.
  intros Hex Hg Hall. unfold print_full_table. rewrite Hex, Hg. cbn [negb].
  rewrite (io_bind_ok _ _ groups) by reflexivity. rewrite Hall.
  rewrite (io_bind_ok _ _ all) by reflexivity.
  rewrite for_each_print, (io_bind_ok _ _ tt) by reflexivity.
  rewrite for_each_compact_rows, (io_bind_ok _ _ tt) by reflexivity.
  reflexivity.
Qed.

(** A run of the compact report that ends normally found the root and
    aggregated every group. *)
Lemma print_full_table_returns fs :
  outcome (print_full_table fs) = Ok tt →
  Fs.exists_ fs CRITERION_DIR = true ∧
  ∃ groups all, list_groups fs = Ok groups ∧
                foldM (collect_group fs) ∅ groups = Ok all.
Proof.
  unfold print_full_table.
  destruct (Fs.exists_ fs CRITERION_DIR); cbn [negb];
    [|(rewrite (io_bind_ok _ _ tt) by reflexivity); discriminate].
  destruct (list_groups fs) as [groups|e] eqn:Hgroups;
    [|(rewrite (io_bind_raise _ _ e) by reflexivity); discriminate].
  rewrite (io_bind_ok _ _ groups) by reflexivity.
  destruct (foldM (collect_group fs) ∅ groups) as [all|e] eqn:Hall;
    [|(rewrite (io_bind_raise _ _ e) by reflexivity); discriminate].
  intros _. split; [done|]. by exists groups, all.
Qed.

(** ** Group discovery *)

Lemma skip_group_false fs g :
  negb (Fs.is_dir fs g) || bool_decide (Fs.name g = "report") = false ↔ is_group fs g.
Proof.
  unfold is_group. rewrite orb_false_iff, negb_false_iff, bool_decide_eq_false. done.
Qed.

Lemma name_join (p : path) (k : string) : Fs.name (p </> k) = k.
Proof. unfold Fs.name, Fs.join. by rewrite last_snoc. Qed.

Lemma list_groups_elem fs groups g :
  list_groups fs = Ok groups → g ∈ groups → ∃ k, g = CRITERION_DIR </> k.
Proof.
  unfold list_groups. destruct (Fs.iterdir fs CRITERION_DIR) as [l|e] eqn:Hl; [|discriminate].
  intros [= <-]. unfold Fs.sorted. rewrite merge_sort_Permutation.
  unfold Fs.iterdir in Hl.
  destruct (Fs.walk fs CRITERION_DIR) as [[c|entries]|[]]; try discriminate.
  injection Hl as <-. intros (k & -> & _)%list_elem_of_fmap. by exists k.
Qed.

Lemma list_groups_names fs groups g g' :
  list_groups fs = Ok groups → g ∈ groups → g' ∈ groups →
  Fs.name g = Fs.name g' → g = g'.
Proof.
  intros Hg [k ->]%(list_groups_elem _ _ _ Hg) [k' ->]%(list_groups_elem _ _ _ Hg).
  rewrite !name_join. by intros ->.
Qed.

Lemma collect_groups_lookup fs (groups : list path) :
  (∀ g g', g ∈ groups → g' ∈ groups → Fs.name g = Fs.name g' → g = g') →
  ∀ all0 all,
    foldM (collect_group fs) all0 groups = Ok all →
    ∀ name results,
      all !! name = Some results ↔
        (∃ g, g ∈ groups ∧ Fs.name g = name ∧ is_group fs g ∧
              summarize_dictionary fs g = Ok results) ∨
        ((∀ g, g ∈ groups → Fs.name g = name → ¬ is_group fs g) ∧
         all0 !! name = Some results).
Proof.
  induction groups as [|x l IH]; intros Hinj all0 all Hfold name results.
  - injection Hfold as <-. split.
    + intros H. right. split; [|done]. by intros g []%elem_of_nil.
    + intros [(g & []%elem_of_nil & _)|[_ H]]. done.
  - simpl in Hfold.
    destruct (collect_group fs all0 x) as [a1|e] eqn:Hx; [|discriminate].
    cbn [mbind result_bind] in Hfold.
    assert (∀ g g', g ∈ l → g' ∈ l → Fs.name g = Fs.name g' → g = g') as Hinj'.
    { intros g g' Hg Hg'. apply Hinj; by apply list_elem_of_further. }
    rewrite (IH Hinj' _ _ Hfold name results). clear IH.
    unfold collect_group in Hx.
    destruct (negb (Fs.is_dir fs x) || bool_decide (Fs.name x = "report")) eqn:Hskip.
    + injection Hx as <-.
      assert (¬ is_group fs x) as Hnot.
      { rewrite <-skip_group_false. by rewrite Hskip. }
      split.
      * intros [(g & Hin & Hg)|[Hnone Hold]].
        -- left. exists g. split; [by apply list_elem_of_further|done].
        -- right. split; [|done].
           intros g [->|Hin]%elem_of_cons Hname; [done|by apply Hnone].
      * intros [(g & [->|Hin]%elem_of_cons & Hname & Hgrp & Hsum)|[Hnone Hold]].
        -- done.
        -- left. by exists g.
        -- right. split; [|done].
           intros g Hin. apply Hnone. by apply list_elem_of_further.
    + apply skip_group_false in Hskip.
      destruct (summarize_dictionary fs x) as [rx|e] eqn:Hsum; [|discriminate].
      cbn [mbind result_bind] in Hx. injection Hx as <-. split.
      * intros [(g & Hin & Hg)|[Hnone Hold]].
        -- left. exists g. split; [by apply list_elem_of_further|done].
        -- destruct (decide (Fs.name x = name)) as [<-|Hne].
           ++ rewrite lookup_insert_eq in Hold. injection Hold as <-.
              left. exists x. split; [apply list_elem_of_here|done].
           ++ rewrite lookup_insert_ne in Hold by done. right. split; [|done].
              intros g [->|Hin]%elem_of_cons Hname; [done|by apply Hnone].
      * intros [(g & [->|Hin]%elem_of_cons & Hname & Hgrp & Hg)|[Hnone Hold]].
        -- destruct (decide (x ∈ l)) as [Hin|Hnin]; [left; by exists x|].
           right. split.
           ++ intros g Hin Hgname. exfalso. apply Hnin.
              rewrite <-(Hinj g x); [done|by apply list_elem_of_further
                                   |apply list_elem_of_here|congruence].
           ++ subst name. rewrite lookup_insert_eq. congruence.
        -- left. by exists g.
        -- right. split.
           ++ intros g Hin. apply Hnone. by apply list_elem_of_further.
           ++ rewrite lookup_insert_ne; [done|].
              intros Hname. by apply (Hnone x); [apply list_elem_of_here| |].
Qed.

Lemma elem_of_sorted_items (all : gmap string group_results) name results :
  (name, results) ∈ sorted_items all ↔ all !! name = Some results.
Proof.
  unfold sorted_items. rewrite merge_sort_Permutation. apply elem_of_map_to_list.
Qed.

Lemma elem_of_compact_rows (items : list (string * group_results)) (line : string) :
  line ∈ compact_rows items ↔
  ∃ name results, (name, results) ∈ items ∧ results ≠ ∅ ∧
                  line = compact_row name results.
Proof.
  unfold compact_rows. rewrite list_elem_of_fmap. split.
  - intros ([name results] & -> & [Hne Hin]%list_elem_of_filter).
    exists name, results. split; [done|]. split; [by apply is_empty_false|done].
  - intros (name & results & Hin & Hne & ->). exists (name, results).
    split; [done|]. apply list_elem_of_filter. split; [by apply is_empty_false|done].
Qed.

(** ** Compact mode: the rows *)

(** Without a cell at 64 KB the row is the name, three dashes and no best. *)
Lemma compact_row_no_cells (name : string) (results : group_results) :
  (∀ p, p ∈ paths → cell results p 65536 = None) →
  compact_row name results =
    ((Py.ljust 25 name +:+ " " +:+ Py.ljust 12 "-") +:+ " " +:+ Py.ljust 12 "-")
      +:+ " " +:+ Py.ljust 12 "-".
Proof.
  intros Hnone. unfold compact_row, compact_scan, paths. cbn [foldl].
  unfold compact_step.
  rewrite (Hnone "Scalar"), (Hnone "LUT"), (Hnone "Specialized")
    by (unfold paths; repeat constructor).
  reflexivity.
Qed.

(** C1, as stated, fails: a discovered group whose aggregation gave no
    results has no row in the compact table. *)
Lemma empty_group_has_no_row :
  list_groups fs_empty_group
    = Ok [CRITERION_DIR </> "decode"; CRITERION_DIR </> "encode"] ∧
  is_group fs_empty_group (CRITERION_DIR </> "decode") ∧
  summarize_dictionary fs_empty_group (CRITERION_DIR </> "decode") = Ok ∅ ∧
  print_full_table fs_empty_group
    = Io (table_header
            ++ [compact_row "encode" (results_of fs_empty_group "encode")]
            ++ [rule "-" 90]) (Ok tt) ∧
  compact_row "decode" ∅ ∉ printed (print_full_table fs_empty_group).
Proof.
  split; [vm_compute; reflexivity|]. split; [split; [vm_compute; reflexivity|]|].
  { rewrite name_join. discriminate. }
  split; [vm_compute; reflexivity|]. split; [vm_compute; reflexivity|].
  apply (bool_decide_unpack _). vm_compute. exact I.
Qed.

(** C1, amended: when the compact report ends normally, the lines between
    the header and the closing rule are exactly the rows of the discovered
    groups whose results are not empty (some variant directory exists); a
    group whose variants have no record at 64 KB is such a row with three
    dashes and no best. A group with empty results gets no row. *)
Theorem compact_rows_listed (fs : node) :
  outcome (print_full_table fs) = Ok tt →
  ∃ groups rows,
    list_groups fs = Ok groups ∧
    printed (print_full_table fs) = table_header ++ rows ++ [rule "-" 90] ∧
    (∀ g results,
       g ∈ groups → is_group fs g →
       summarize_dictionary fs g = Ok results → results ≠ ∅ →
       compact_row (Fs.name g) results ∈ rows) ∧
    (∀ line,
       line ∈ rows →
       ∃ g results,
         g ∈ groups ∧ is_group fs g ∧
         summarize_dictionary fs g = Ok results ∧ results ≠ ∅ ∧
         line = compact_row (Fs.name g) results) ∧
    (∀ name results,
       (∀ p, p ∈ paths → cell results p 65536 = None) →
       compact_row name results =
         ((Py.ljust 25 name +:+ " " +:+ Py.ljust 12 "-") +:+ " " +:+ Py.ljust 12 "-")
           +:+ " " +:+ Py.ljust 12 "-").
Proof.
  intros (Hex & groups & all & Hgroups & Hall)%print_full_table_returns.
  exists groups, (compact_rows (sorted_items all)).
  split; [done|]. split; [by rewrite (print_full_table_ok _ _ _ Hex Hgroups Hall)|].
  pose proof (collect_groups_lookup fs groups
                (λ g g', list_groups_names fs groups g g' Hgroups) _ _ Hall) as Hlookup.
  split; [|split].
  - intros g results Hin Hgrp Hsum Hne. apply elem_of_compact_rows.
    exists (Fs.name g), results. split; [|done].
    apply elem_of_sorted_items, Hlookup. left. by exists g.
  - intros line (name & results & Hin & Hne & ->)%elem_of_compact_rows.
    apply elem_of_sorted_items, Hlookup in Hin
      as [(g & Hin & <- & Hgrp & Hsum)|[_ Hold]].
    + by exists g, results.
    + by rewrite lookup_empty in Hold.
  - apply compact_row_no_cells.
Qed.

Lemma compact_rows_listed_witness :
  ∃ groups rows,
    list_groups fs_empty_group = Ok groups ∧
    printed (print_full_table fs_empty_group) = table_header ++ rows ++ [rule "-" 90].
Proof.
  destruct (compact_rows_listed fs_empty_group) as (groups & rows & H1 & H2 & _);
    [vm_compute; reflexivity|].
  exists groups, rows. split; assumption.
Defined.

(** ** Which exceptions can be raised *)

Lemma truediv_no_exit (a b : pyval) (e : exn) :
  Py.truediv a b = Raise e → is_exit e = false.
Proof.
  unfold Py.truediv, Py.int_truediv, Py.to_float, Py.float_of_int, Py.float_truediv.
  destruct (Py.as_num a) as [[x|x]|], (Py.as_num b) as [[y|y]|];
    cbn [mbind result_bind];
    repeat match goal with
           | |- context [if ?c then _ else _] => destruct c; cbn [mbind result_bind]
           end;
    intros [=]; by subst.
Qed.

Lemma get_throughput_no_exit (mean : pyval) (size : Z) (e : exn) :
  get_throughput mean size = Raise e → is_exit e = false.
Proof.
  unfold get_throughput.
  destruct (Py.truediv mean _) as [seconds|e1] eqn:H1; cbn [mbind result_bind];
    [|intros [= <-]; by apply truediv_no_exit in H1].
  destruct (Py.truediv (PInt size) _) as [bps|e2] eqn:H2; cbn [mbind result_bind];
    [|intros [= <-]; by apply truediv_no_exit in H2].
  destruct (Py.truediv (PFloat bps) _) as [mb|e3] eqn:H3; cbn [mbind result_bind];
    [|intros [= <-]; by apply truediv_no_exit in H3].
  destruct (PrimFloat.leb 1000 mb); [|discriminate].
  destruct (Py.truediv (PFloat mb) _) as [gb|e4] eqn:H4; cbn [mbind result_bind];
    [discriminate|intros [= <-]; by apply truediv_no_exit in H4].
Qed.

Lemma parse_estimates_no_exit fs p (e : exn) :
  parse_estimates fs p = Raise e → is_exit e = false.
Proof.
  intros H%parse_estimates_raises.
  repeat (apply elem_of_cons in H as [->|H]; [reflexivity|]). by apply elem_of_nil in H.
Qed.

Lemma foldM_no_exit {A S} (body : S → A → result S) (l : list A) :
  (∀ s x e, body s x = Raise e → is_exit e = false) →
  ∀ s e, foldM body s l = Raise e → is_exit e = false.
Proof.
  intros Hbody. induction l as [|x l IH]; intros s e; [discriminate|].
  simpl. destruct (body s x) as [s'|e'] eqn:Hx; cbn [mbind result_bind].
  - apply IH.
  - intros [= <-]. by apply Hbody in Hx.
Qed.

Lemma summarize_dictionary_no_exit fs group_dir (e : exn) :
  summarize_dictionary fs group_dir = Raise e → is_exit e = false.
Proof.
  apply foldM_no_exit. intros results path e'. unfold summarize_path.
  destruct (negb _); [discriminate|].
  apply foldM_no_exit. intros results' size e''. unfold summarize_size.
  destruct (Fs.exists_ fs _); [|discriminate].
  destruct (parse_estimates fs _) as [[est|]|e1] eqn:Hp; cbn [mbind result_bind];
    [| discriminate | intros [= <-]; by apply parse_estimates_no_exit in Hp].
  destruct (get_throughput _ size) as [[mb display]|e2] eqn:Hg; cbn [mbind result_bind];
    [discriminate|intros [= <-]; by apply get_throughput_no_exit in Hg].
Qed.

Lemma list_groups_no_exit fs (e : exn) :
  list_groups fs = Raise e → is_exit e = false.
Proof.
  unfold list_groups, Fs.iterdir.
  destruct (Fs.walk fs CRITERION_DIR) as [[c|entries]|[]]; intros [= <-]; reflexivity.
Qed.

Lemma collect_groups_no_exit fs groups all0 (e : exn) :
  foldM (collect_group fs) all0 groups = Raise e → is_exit e = false.
Proof.
  apply foldM_no_exit. intros all g e'. unfold collect_group.
  destruct (_ || _); [discriminate|].
  destruct (summarize_dictionary fs g) as [r|e1] eqn:Hs; cbn [mbind result_bind];
    [discriminate|intros [= <-]; by apply summarize_dictionary_no_exit in Hs].
Qed.

Lemma io_bind_outcome {A B} (m : io A) (f : A → io B) (e : exn) :
  outcome (m ≫= f) = Raise e →
  outcome m = Raise e ∨ ∃ a, outcome m = Ok a ∧ outcome (f a) = Raise e.
Proof.
  unfold mbind, io_bind. destruct (outcome m) as [a|e'] eqn:Hm; cbn [outcome].
  - intros H. right. by exists a.
  - intros [= <-]. by left.
Qed.

Lemma for_each_no_exit {A} (l : list A) (body : A → io unit) :
  (∀ x e, outcome (body x) = Raise e → is_exit e = false) →
  ∀ e, outcome (for_each l body) = Raise e → is_exit e = false.
Proof.
  intros Hbody. induction l as [|x l IH]; intros e; [discriminate|].
  cbn [for_each]. intros [H|(a & _ & H)]%io_bind_outcome.
  - by apply Hbody in H.
  - by apply IH.
Qed.

Lemma print_speedup_no_exit results (e : exn) :
  outcome (print_speedup results) = Raise e → is_exit e = false.
Proof.
  unfold print_speedup. destruct (cell results "Scalar" 65536) as [scalar|]; [|discriminate].
  intros [H|(a & _ & H)]%io_bind_outcome; [discriminate|]. revert e H.
  apply for_each_no_exit. intros path e.
  destruct (cell results path 65536) as [c|]; [|discriminate].
  intros [H|(a' & _ & H)]%io_bind_outcome; [|discriminate].
  cbn in H. by apply truediv_no_exit in H.
Qed.

Lemma print_rows_outcome results : outcome (print_rows results) = Ok tt.
Proof.
  unfold print_rows. induction paths as [|path l IH]; [reflexivity|].
  cbn [for_each]. destruct (results !! path).
  - rewrite (io_bind_ok _ _ tt) by reflexivity. exact IH.
  - rewrite (io_bind_ok _ _ tt) by reflexivity. exact IH.
Qed.

Lemma print_group_no_exit fs g (e : exn) :
  outcome (print_group fs g) = Raise e → is_exit e = false.
Proof.
  unfold print_group. destruct (_ || _); [discriminate|].
  intros [H|(a & _ & H)]%io_bind_outcome; [discriminate|].
  apply io_bind_outcome in H as [H|(a' & _ & H)]; [discriminate|].
  apply io_bind_outcome in H as [H|(results & _ & H)].
  { cbn in H. by apply summarize_dictionary_no_exit in H. }
  destruct (is_empty results); [discriminate|].
  apply io_bind_outcome in H as [H|(a1 & _ & H)]; [discriminate|].
  apply io_bind_outcome in H as [H|(a2 & _ & H)]; [discriminate|].
  apply io_bind_outcome in H as [H|(a3 & _ & H)].
  { by rewrite print_rows_outcome in H. }
  by apply print_speedup_no_exit in H.
Qed.

(** ** The missing root *)

Lemma print_full_table_root_missing fs :
  Fs.exists_ fs CRITERION_DIR = false →
  print_full_table fs = Io [no_results_msg] (Raise (SystemExit 1)).
Proof. unfold print_full_table. by intros ->. Qed.

Lemma print_detailed_root_missing fs :
  Fs.exists_ fs CRITERION_DIR = false →
  print_detailed fs = Io [no_results_msg] (Raise (SystemExit 1)).
Proof. unfold print_detailed. by intros ->. Qed.

Lemma print_full_table_exit fs (code : Z) :
  outcome (print_full_table fs) = Raise (SystemExit code) →
  Fs.exists_ fs CRITERION_DIR = false.
Proof.
  unfold print_full_table. destruct (Fs.exists_ fs CRITERION_DIR); [|done].
  cbn [negb]. intros H. exfalso.
  apply io_bind_outcome in H as [H|(groups & _ & H)].
  { cbn in H. by apply list_groups_no_exit in H. }
  apply io_bind_outcome in H as [H|(all & _ & H)].
  { cbn in H. by apply collect_groups_no_exit in H. }
  apply io_bind_outcome in H as [H|(a1 & _ & H)].
  { by rewrite for_each_print in H. }
  apply io_bind_outcome in H as [H|(a2 & _ & H)]; [|discriminate].
  by rewrite for_each_compact_rows in H.
Qed.

Lemma print_detailed_exit fs (code : Z) :
  outcome (print_detailed fs) = Raise (SystemExit code) →
  Fs.exists_ fs CRITERION_DIR = false.
Proof.
  unfold print_detailed. destruct (Fs.exists_ fs CRITERION_DIR); [|done].
  cbn [negb]. intros H. exfalso.
  apply io_bind_outcome in H as [H|(groups & _ & H)].
  { cbn in H. by apply list_groups_no_exit in H. }
  apply io_bind_outcome in H as [H|(a1 & _ & H)]; [discriminate|].
  apply io_bind_outcome in H as [H|(a2 & _ & H)]; [discriminate|].
  apply io_bind_outcome in H as [H|(a3 & _ & H)]; [discriminate|].
  apply for_each_no_exit in H; [discriminate|]. apply print_group_no_exit.
Qed.

(** C9, as stated, fails: with the root present, a record whose mean is
    zero aborts both reports with ZeroDivisionError and exit status 1, the
    detailed one after it printed its header. *)
Lemma abort_with_root_present :
  Fs.exists_ fs_zero_mean CRITERION_DIR = true ∧
  main ["bench_summary.py"] fs_zero_mean = Io [] (Raise ZeroDivisionError) ∧
  exit_status (main ["bench_summary.py"] fs_zero_mean) = 1 ∧
  outcome (main ["bench_summary.py"; "--detailed"] fs_zero_mean) = Raise ZeroDivisionError ∧
  exit_status (main ["bench_summary.py"; "--detailed"] fs_zero_mean) = 1.
Proof. repeat split; vm_compute; reflexivity. Qed.

(** C9, amended: in both modes a missing root prints the one-line
    instruction and nothing else and exits with status 1; and the program
    exits through [sys.exit] on this path only. *)
Theorem root_missing_exit :
  (∀ fs argv,
     Fs.exists_ fs CRITERION_DIR = false →
     main argv fs = Io [no_results_msg] (Raise (SystemExit 1)) ∧
     exit_status (main argv fs) = 1) ∧
  (∀ fs argv code,
     outcome (main argv fs) = Raise (SystemExit code) →
     Fs.exists_ fs CRITERION_DIR = false).
Proof.
  split.
  - intros fs argv Hroot. unfold main, exit_status.
    destruct (argv !! 1%nat) as [arg|]; [destruct (bool_decide (arg = "--detailed"))|];
      rewrite ?print_detailed_root_missing, ?print_full_table_root_missing by done;
      done.
  - intros fs argv code. unfold main.
    destruct (argv !! 1%nat) as [arg|]; [destruct (bool_decide (arg = "--detailed"))|];
      eauto using print_detailed_exit, print_full_table_exit.
Qed.

Lemma root_missing_exit_witness :
  main ["bench_summary.py"] (Dir ∅) = Io [no_results_msg] (Raise (SystemExit 1)) ∧
  main ["bench_summary.py"; "--detailed"] (Dir ∅)
    = Io [no_results_msg] (Raise (SystemExit 1)).
Proof.
  split.
  - apply (proj1 root_missing_exit (Dir ∅) ["bench_summary.py"]). reflexivity.
  - apply (proj1 root_missing_exit (Dir ∅) ["bench_summary.py"; "--detailed"]). reflexivity.
Defined.

(** ** Detailed mode: the speedup section *)

Lemma print_speedup_absent (results : group_results) :
  cell results "Scalar" 65536 = None → print_speedup results = mret tt.
Proof. unfold print_speedup. by intros ->. Qed.

Lemma print_speedup_present (results : group_results) (scalar : entry) :
  cell results "Scalar" 65536 = Some scalar →
  (∀ path c, path ∈ ["LUT"; "Specialized"] → cell results path 65536 = Some c →
             ∃ speedup, Py.truediv (mean_ns scalar) (mean_ns c) = Ok speedup) →
  print_speedup results = Io (speedup_header :: speedup_lines results scalar) (Ok tt).
Proof.
  intros Hs Hdiv. unfold print_speedup, speedup_lines. rewrite Hs.
  rewrite (io_bind_ok _ _ tt) by reflexivity. cbn [for_each mbind list_bind].
  pose proof (Hdiv "LUT") as Hl. pose proof (Hdiv "Specialized") as Hp.
  destruct (cell results "LUT" 65536) as [cl|];
    [destruct (Hl cl) as [ql Hql]; [repeat constructor|done|]; rewrite Hql|];
    (destruct (cell results "Specialized" 65536) as [cp|];
     [destruct (Hp cp) as [qp Hqp]; [repeat constructor|done|]; rewrite Hqp|]);
    reflexivity.
Qed.

Lemma elem_of_speedup_lines results scalar path c speedup :
  path ∈ ["LUT"; "Specialized"] →
  cell results path 65536 = Some c →
  Py.truediv (mean_ns scalar) (mean_ns c) = Ok speedup →
  speedup_line path speedup ∈ speedup_lines results scalar.
Proof.
  intros Hpath Hc Hq. unfold speedup_lines. apply list_elem_of_bind.
  exists path. split; [|done]. rewrite Hc, Hq. apply list_elem_of_here.
Qed.

(** What one group prints in detailed mode, down to the speedup section. *)
Lemma print_group_printed fs g results :
  is_group fs g →
  summarize_dictionary fs g = Ok results →
  printed (print_group fs g) =
    [nl +:+ Fs.name g; rule "-" 60]
    ++ (if is_empty results then ["  No results yet"]
        else ["  " +:+ Py.ljust 12 "Path" +:+ " " +:+ Py.ljust 10 "64B" +:+ " "
                +:+ Py.ljust 10 "1KB" +:+ " " +:+ Py.ljust 10 "64KB";
              "  " +:+ rule "-" 12 +:+ " " +:+ rule "-" 10 +:+ " "
                +:+ rule "-" 10 +:+ " " +:+ rule "-" 10]
             ++ printed (print_rows results) ++ printed (print_speedup results)).
Proof.
  intros Hgrp%skip_group_false Hsum. unfold print_group. rewrite Hgrp, Hsum.
  rewrite (io_bind_ok _ _ tt) by reflexivity.
  rewrite (io_bind_ok _ _ tt) by reflexivity.
  rewrite (io_bind_ok _ _ results) by reflexivity.
  destruct (is_empty results); [reflexivity|].
  rewrite (io_bind_ok _ _ tt) by reflexivity.
  rewrite (io_bind_ok _ _ tt) by reflexivity.
  rewrite (io_bind_ok _ _ tt) by apply print_rows_outcome.
  reflexivity.
Qed.

Lemma is_empty_no_cell (results : group_results) path size :
  is_empty results = true → cell results path size = None.
Proof.
  unfold is_empty, cell. intros H%bool_decide_eq_true%map_size_empty_iff.
  subst. by rewrite lookup_empty.
Qed.

Lemma print_group_outcome fs g results :
  is_group fs g →
  summarize_dictionary fs g = Ok results →
  outcome (print_group fs g) =
    if is_empty results then Ok tt else outcome (print_speedup results).
Proof.
  intros Hgrp%skip_group_false Hsum. unfold print_group. rewrite Hgrp, Hsum.
  rewrite (io_bind_ok _ _ tt) by reflexivity.
  rewrite (io_bind_ok _ _ tt) by reflexivity.
  rewrite (io_bind_ok _ _ results) by reflexivity.
  destruct (is_empty results); [reflexivity|].
  rewrite (io_bind_ok _ _ tt) by reflexivity.
  rewrite (io_bind_ok _ _ tt) by reflexivity.
  rewrite (io_bind_ok _ _ tt) by apply print_rows_outcome.
  reflexivity.
Qed.

(** C8, as stated, fails: with the integer means 10^310 for Scalar and 1
    for LUT at 64 KB, both stored by the aggregation, the block prints the
    header of the section and ends with OverflowError at the quotient; no
    speedup line is printed for LUT, and the report ends the same way. *)
Lemma speedup_line_missing :
  let g := CRITERION_DIR </> "encode" in
  let results := results_of fs_huge_mean "encode" in
  (∃ scalar lut,
     cell results "Scalar" 65536 = Some scalar ∧ mean_ns scalar = PInt (10 ^ 310) ∧
     cell results "LUT" 65536 = Some lut ∧ mean_ns lut = PInt 1) ∧
  Py.truediv (PInt (10 ^ 310)) (PInt 1) = Raise OverflowError ∧
  print_group fs_huge_mean g =
    Io ([nl +:+ "encode"; rule "-" 60] ++ detailed_table_header
          ++ printed (print_rows results) ++ [speedup_header])
       (Raise OverflowError) ∧
  outcome (print_detailed fs_huge_mean) = Raise OverflowError.
Proof.
  intros g results. split; [|split; [|split]].
  - eexists _, _. split; [vm_compute; reflexivity|].
    split; [vm_compute; reflexivity|]. split; vm_compute; reflexivity.
  - vm_compute. reflexivity.
  - vm_compute. reflexivity.
  - vm_compute. reflexivity.
Qed.

(** C8, amended: in detailed mode the block of a group whose aggregation
    returned is its name line and rule, then the table (or the line
    "No results yet"), then the speedup section and nothing else. Without
    a Scalar result at 65536 no part of the section is printed. With one,
    and when the quotient [scalar_mean_ns / variant_mean_ns] has a value
    for each of LUT and Specialized that has a result at 65536, the
    section is the header followed by exactly one line per such variant,
    LUT first, with the quotient to one decimal and an "x" suffix, and the
    block ends normally. *)
Theorem detailed_speedup_section fs g results :
  is_group fs g →
  summarize_dictionary fs g = Ok results →
  let top := [nl +:+ Fs.name g; rule "-" 60] in
  let table := detailed_table_header ++ printed (print_rows results) in
  (cell results "Scalar" 65536 = None →
     print_group fs g =
       Io (top ++ (if is_empty results then ["  No results yet"] else table)) (Ok tt)) ∧
  (∀ scalar,
     cell results "Scalar" 65536 = Some scalar →
     (∀ path c, path ∈ ["LUT"; "Specialized"] → cell results path 65536 = Some c →
                ∃ speedup, Py.truediv (mean_ns scalar) (mean_ns c) = Ok speedup) →
     print_group fs g =
       Io (top ++ table ++ speedup_header :: speedup_lines results scalar) (Ok tt) ∧
     (∀ path c speedup,
        path ∈ ["LUT"; "Specialized"] → cell results path 65536 = Some c →
        Py.truediv (mean_ns scalar) (mean_ns c) = Ok speedup →
        "    " +:+ path +:+ ": " +:+ Py.format_fixed 1 speedup +:+ "x"
          ∈ speedup_lines results scalar) ∧
     (∀ line, line ∈ speedup_lines results scalar →
        ∃ path c speedup,
          path ∈ ["LUT"; "Specialized"] ∧ cell results path 65536 = Some c ∧
          Py.truediv (mean_ns scalar) (mean_ns c) = Ok speedup ∧
          line = "    " +:+ path +:+ ": " +:+ Py.format_fixed 1 speedup +:+ "x") ∧
     length (speedup_lines results scalar) =
       length (filter (λ path, is_Some (cell results path 65536)) ["LUT"; "Specialized"]) ∧
     (∀ cl cp ql qp,
        cell results "LUT" 65536 = Some cl → cell results "Specialized" 65536 = Some cp →
        Py.truediv (mean_ns scalar) (mean_ns cl) = Ok ql →
        Py.truediv (mean_ns scalar) (mean_ns cp) = Ok qp →
        speedup_lines results scalar
          = [speedup_line "LUT" ql; speedup_line "Specialized" qp])).
Proof.
  intros Hgrp Hsum top table.
  pose proof (print_group_printed _ _ _ Hgrp Hsum) as Hprinted.
  pose proof (print_group_outcome _ _ _ Hgrp Hsum) as Houtcome.
  fold top in Hprinted. split.
  - intros Hs. rewrite <-(io_eta (print_group fs g)), Hprinted, Houtcome.
    rewrite (print_speedup_absent _ Hs).
    destruct (is_empty results); [reflexivity|].
    cbn [printed outcome mret io_ret]. by rewrite app_nil_r.
  - intros scalar Hs Hdiv.
    pose proof (print_speedup_present _ _ Hs Hdiv) as Hsection.
    split; [|split; [|split; [|split]]].
    + rewrite <-(io_eta (print_group fs g)), Hprinted, Houtcome, Hsection.
      destruct (is_empty results) eqn:Hempty.
      { by rewrite (is_empty_no_cell _ _ _ Hempty) in Hs. }
      cbn [printed outcome]. unfold table. by rewrite <-!app_assoc.
    + intros path c speedup. apply elem_of_speedup_lines.
    + intros line (path & Hline & Hpath)%list_elem_of_bind.
      destruct (cell results path 65536) as [c|] eqn:Hc; [|by apply elem_of_nil in Hline].
      destruct (Py.truediv (mean_ns scalar) (mean_ns c)) as [speedup|e] eqn:Hq;
        [|by apply elem_of_nil in Hline].
      apply list_elem_of_singleton in Hline as ->. by exists path, c, speedup.
    + unfold speedup_lines. cbn [mbind list_bind]. rewrite !filter_cons, filter_nil.
      pose proof (Hdiv "LUT") as Hl. pose proof (Hdiv "Specialized") as Hp.
      destruct (cell results "LUT" 65536) as [cl|];
        [destruct (Hl cl) as [ql Hql]; [repeat constructor|done|]; rewrite Hql|];
        (destruct (cell results "Specialized" 65536) as [cp|];
         [destruct (Hp cp) as [qp Hqp]; [repeat constructor|done|]; rewrite Hqp|]);
        repeat (destruct (decide _) as [?|Hno];
                [|try (exfalso; apply Hno; by eexists)]);
        try reflexivity;
        repeat match goal with H : is_Some None |- _ => by destruct H end.
    + intros cl cp ql qp Hcl Hcp Hql Hqp. unfold speedup_lines.
      cbn [mbind list_bind]. by rewrite Hcl, Hcp, Hql, Hqp.
Qed.

Lemma detailed_speedup_section_witness :
  print_group fs_demo (CRITERION_DIR </> "encode_base64") =
    Io ([nl +:+ "encode_base64"; rule "-" 60] ++ detailed_table_header
          ++ printed (print_rows (results_of fs_demo "encode_base64"))
          ++ [speedup_header; "    LUT: 2.0x"])
       (Ok tt).
Proof.
  pose (scalar := Entry (PFloat 1000) (PFloat 1) "61.04 GB/s" 62500).
  destruct (detailed_speedup_section fs_demo (CRITERION_DIR </> "encode_base64")
              (results_of fs_demo "encode_base64")) as (_ & H).
  - split; [vm_compute; reflexivity|]. rewrite name_join. discriminate.
  - vm_compute. reflexivity.
  - destruct (H scalar) as [-> _].
    + vm_compute. reflexivity.
    + intros path c Hpath Hc.
      repeat (apply elem_of_cons in Hpath as [->|Hpath]).
      * vm_compute in Hc. injection Hc as <-. eexists. vm_compute. reflexivity.
      * vm_compute in Hc. discriminate.
      * by apply elem_of_nil in Hpath.
    + vm_compute. reflexivity.
Defined.

Lemma parse_estimates_failures_witness :
  parse_estimates (Dir ∅) [] = Ok None ∧
  parse_estimates fs_unparsed_variant
    (CRITERION_DIR </> "encode" </> "Scalar" </> "65536") = Ok None.
Proof.
  split.
  - apply (proj1 (parse_estimates_failures (Dir ∅) [])). reflexivity.
  - apply (proj1 (proj2 (parse_estimates_failures fs_unparsed_variant
             (CRITERION_DIR </> "encode" </> "Scalar" </> "65536")))).
    vm_compute. reflexivity.
Defined.

(** * Further properties *)

(** ** ThroughputCalculator: results and errors *)

(** Why [a / b] raises. *)
Lemma truediv_raises (a b : pyval) (e : exn) :
  Py.truediv a b = Raise e →
  (e = TypeError ∧ (Py.as_num a = None ∨ Py.as_num b = None)) ∨
  ((e = ZeroDivisionError ∨ e = OverflowError) ∧
   Py.as_num a ≠ None ∧ Py.as_num b ≠ None).
Proof.
  unfold Py.truediv, Py.int_truediv, Py.to_float, Py.float_of_int, Py.float_truediv.
  destruct (Py.as_num a) as [[x|x]|], (Py.as_num b) as [[y|y]|];
    cbn [mbind result_bind];
    repeat match goal with
           | |- context [if ?c then _ else _] => destruct c; cbn [mbind result_bind]
           end;
    intros [=]; subst; auto.
Qed.

Lemma as_num_int (z : Z) : Py.as_num (PInt z) ≠ None.
Proof. discriminate. Qed.

Lemma as_num_float (f : float) : Py.as_num (PFloat f) ≠ None.
Proof. discriminate. Qed.

(** A division whose operands are numbers raises no TypeError. *)
Lemma truediv_numbers_raise (a b : pyval) (e : exn) :
  Py.as_num a ≠ None → Py.as_num b ≠ None →
  Py.truediv a b = Raise e → e = ZeroDivisionError ∨ e = OverflowError.
Proof.
  intros Ha Hb [[_ [H|H]]|[H _]]%truediv_raises; done.
Qed.

(** What the function returned, read back from its result. *)
Lemma get_throughput_ok (mean_ns : pyval) (size_bytes : Z) (mb : float) (display : string) :
  get_throughput mean_ns size_bytes = Ok (mb, display) →
  Py.as_num mean_ns ≠ None ∧
  display = if (1000 <=? mb)%float
            then Py.format_fixed 2 (mb / 1024)%float +:+ " GB/s"
            else Py.format_fixed 1 mb +:+ " MB/s".
Proof.
  unfold get_throughput.
  destruct (Py.truediv mean_ns _) as [seconds|e1] eqn:H1; cbn [mbind result_bind];
    [|discriminate].
  assert (Py.as_num mean_ns ≠ None) as Hnum.
  { unfold Py.truediv in H1. by destruct (Py.as_num mean_ns). }
  destruct (Py.truediv (PInt size_bytes) _) as [bps|e2]; cbn [mbind result_bind];
    [|discriminate].
  rewrite truediv_float_mib. cbn [mbind result_bind].
  destruct (1000 <=? bps / 1048576)%float eqn:Hge.
  - rewrite truediv_float_1024. cbn [mbind result_bind].
    intros [= <- <-]. by rewrite Hge.
  - intros [= <- <-]. by rewrite Hge.
Qed.

(** X1: whenever the function returns, the display string is determined by
    the returned rate alone: the GB/s form of [mb_per_sec / 1024] from 1000
    upwards and the MB/s form below, whatever mean and size produced it. *)
Theorem throughput_display_of_rate (mean_ns : pyval) (size_bytes : Z)
    (mb : float) (display : string) :
  get_throughput mean_ns size_bytes = Ok (mb, display) →
  display = (if (1000 <=? mb)%float
             then Py.format_fixed 2 (mb / 1024)%float +:+ " GB/s"
             else Py.format_fixed 1 mb +:+ " MB/s") ∧
  ∀ mean_ns' size_bytes' display',
    get_throughput mean_ns' size_bytes' = Ok (mb, display') → display' = display.
Proof.
  intros [_ ->]%get_throughput_ok. split; [reflexivity|].
  by intros mean_ns' size_bytes' display' [_ ->]%get_throughput_ok.
Qed.

Lemma throughput_display_of_rate_witness :
  get_throughput (PInt 500) 32768 = Ok (62500%float, "61.04 GB/s") ∧
  get_throughput (PFloat 1000) 65536 = Ok (62500%float, "61.04 GB/s") ∧
  "61.04 GB/s" = (if (1000 <=? 62500)%float
                  then Py.format_fixed 2 (62500 / 1024)%float +:+ " GB/s"
                  else Py.format_fixed 1 62500%float +:+ " MB/s").
Proof.
  assert (get_throughput (PInt 500) 32768 = Ok (62500%float, "61.04 GB/s")) as H
    by (vm_compute; reflexivity).
  split; [exact H|]. split; [vm_compute; reflexivity|].
  exact (proj1 (throughput_display_of_rate (PInt 500) 32768 62500%float "61.04 GB/s" H)).
Defined.

(** X2: the function raises only TypeError, ZeroDivisionError or
    OverflowError, and TypeError exactly when the mean is not a number (an
    integer, a boolean or a float): a string, a list, an object or null
    taken from the record. *)
Theorem throughput_errors (mean_ns : pyval) (size_bytes : Z) :
  (Py.as_num mean_ns = None → get_throughput mean_ns size_bytes = Raise TypeError) ∧
  (∀ e, get_throughput mean_ns size_bytes = Raise e →
        (e = TypeError ∧ Py.as_num mean_ns = None) ∨
        ((e = ZeroDivisionError ∨ e = OverflowError) ∧ Py.as_num mean_ns ≠ None)).
Proof.
  split.
  - intros Hnone. unfold get_throughput, Py.truediv. by rewrite Hnone.
  - intros e. unfold get_throughput.
    destruct (Py.truediv mean_ns _) as [seconds|e1] eqn:H1; cbn [mbind result_bind].
    + assert (Py.as_num mean_ns ≠ None) as Hnum.
      { unfold Py.truediv in H1. by destruct (Py.as_num mean_ns). }
      destruct (Py.truediv (PInt size_bytes) _) as [bps|e2] eqn:H2;
        cbn [mbind result_bind].
      * rewrite truediv_float_mib. cbn [mbind result_bind].
        destruct (1000 <=? bps / 1048576)%float; [|discriminate].
        rewrite truediv_float_1024. discriminate.
      * intros [= <-]. right. split; [|done].
        by apply truediv_numbers_raise in H2.
    + intros [= <-].
      apply truediv_raises in H1 as [[-> [H|H]]|[H [Hnum _]]]; [by left|done|by right].
Qed.

Lemma throughput_errors_witness :
  get_throughput (PStr "fast") 65536 = Raise TypeError ∧
  get_throughput PNone 64 = Raise TypeError.
Proof.
  split.
  - apply (proj1 (throughput_errors (PStr "fast") 65536)). reflexivity.
  - apply (proj1 (throughput_errors PNone 64)). reflexivity.
Defined.

(** ** EstimateReader: what a result tells *)

Lemma getitem_ok (v : pyval) (k : string) (x : pyval) :
  Py.getitem v k = Ok x → ∃ d, v = PDict d ∧ d !! k = Some x.
Proof.
  destruct v as [| | | | | |d]; simpl; try discriminate.
  destruct (d !! k) as [y|] eqn:Hk; [|discriminate]. intros [= <-]. by exists d.
Qed.

Lemma getitem_key_error (v : pyval) (k : string) :
  Py.getitem v k = Raise KeyError → ∃ d, v = PDict d ∧ d !! k = None.
Proof.
  destruct v as [| | | | | |d]; simpl; try discriminate.
  destruct (d !! k) as [y|] eqn:Hk; [discriminate|]. by exists d.
Qed.

Lemma open_ok_or_raises fs (q : path) :
  (∃ c, Fs.open fs q = Ok c) ∨
  Fs.open fs q = Raise FileNotFoundError ∨
  Fs.open fs q = Raise NotADirectoryError ∨
  Fs.open fs q = Raise IsADirectoryError.
Proof.
  unfold Fs.open. destruct (Fs.walk fs q) as [[c|es]|[]]; eauto.
Qed.

(** X3: the reader returns an estimate only for a JSON object whose "mean"
    and "std_dev" are objects with a "point_estimate", and the estimate
    holds these two values as they are, of whatever type; it returns the
    absence value only when the file is absent, is text that is not JSON,
    or is a JSON object in which one of the four keys is missing. *)
Theorem parse_estimates_results (fs : node) (p : path) :
  let file := p </> "new" </> "estimates.json" in
  (∀ est, parse_estimates fs p = Ok (Some est) →
     ∃ d m sd,
       Fs.open fs file = Ok (Json (PDict d)) ∧
       d !! "mean" = Some (PDict m) ∧
       m !! "point_estimate" = Some (est_mean_ns est) ∧
       d !! "std_dev" = Some (PDict sd) ∧
       sd !! "point_estimate" = Some (est_std_dev_ns est)) ∧
  (parse_estimates fs p = Ok None →
     Fs.open fs file = Raise FileNotFoundError ∨
     Fs.open fs file = Ok NotJson ∨
     ∃ d, Fs.open fs file = Ok (Json (PDict d)) ∧
          (d !! "mean" = None ∨
           ∃ m, d !! "mean" = Some (PDict m) ∧
                (m !! "point_estimate" = None ∨
                 d !! "std_dev" = None ∨
                 ∃ sd, d !! "std_dev" = Some (PDict sd) ∧
                       sd !! "point_estimate" = None))).
Proof.
  intros file. subst file.
  destruct (open_ok_or_raises fs (p </> "new" </> "estimates.json")) as [[c Hopen]|Hraise].
  - destruct c as [| | | |data].
    + unfold parse_estimates, read_estimates. rewrite Hopen.
      split; intros; discriminate.
    + split; [|auto]. intros est. unfold parse_estimates, read_estimates.
      rewrite Hopen. discriminate.
    + unfold parse_estimates, read_estimates. rewrite Hopen.
      split; intros; discriminate.
    + unfold parse_estimates, read_estimates. rewrite Hopen.
      split; intros; discriminate.
    + rewrite (parse_estimates_json _ _ _ Hopen). split.
      * intros est.
        destruct (Py.getitem data "mean") as [mean|e1] eqn:H1; cbn [mbind result_bind];
          [|destruct e1; discriminate].
        destruct (Py.getitem mean "point_estimate") as [x|e2] eqn:H2;
          [|destruct e2; discriminate].
        destruct (Py.getitem data "std_dev") as [std|e3] eqn:H3; cbn [mbind result_bind];
          [|destruct e3; discriminate].
        destruct (Py.getitem std "point_estimate") as [y|e4] eqn:H4;
          [|destruct e4; discriminate].
        intros [= <-]. cbn [est_mean_ns est_std_dev_ns].
        apply getitem_ok in H1 as (d & -> & Hd1).
        apply getitem_ok in H2 as (m & -> & Hm).
        apply getitem_ok in H3 as (d' & [= <-] & Hd2).
        apply getitem_ok in H4 as (sd & -> & Hsd).
        by exists d, m, sd.
      * intros Hnone. right. right.
        destruct (Py.getitem data "mean") as [mean|e1] eqn:H1; cbn [mbind result_bind] in Hnone.
        2:{ destruct e1; try discriminate.
            apply getitem_key_error in H1 as (d & -> & Hd). exists d. auto. }
        apply getitem_ok in H1 as (d & -> & Hd1). exists d. split; [done|]. right.
        destruct (Py.getitem mean "point_estimate") as [x|e2] eqn:H2.
        2:{ destruct e2; try discriminate.
            apply getitem_key_error in H2 as (m & -> & Hm). exists m. auto. }
        apply getitem_ok in H2 as (m & -> & Hm). exists m. split; [done|]. right.
        destruct (Py.getitem (PDict d) "std_dev") as [std|e3] eqn:H3;
          cbn [mbind result_bind] in Hnone.
        2:{ destruct e3; try discriminate.
            apply getitem_key_error in H3 as (d' & [= <-] & Hd2). auto. }
        apply getitem_ok in H3 as (d' & [= <-] & Hd2). right.
        destruct (Py.getitem std "point_estimate") as [y|e4] eqn:H4;
          [discriminate|].
        destruct e4; try discriminate.
        apply getitem_key_error in H4 as (sd & -> & Hsd). by exists sd.
  - unfold parse_estimates, read_estimates.
    destruct Hraise as [->|[->| ->]]; split; try discriminate; auto.
Qed.

Lemma parse_estimates_results_witness :
  ∃ d m sd,
    Fs.open fs_demo (CRITERION_DIR </> "encode_base64" </> "LUT" </> "65536"
                       </> "new" </> "estimates.json") = Ok (Json (PDict d)) ∧
    d !! "mean" = Some (PDict m) ∧
    m !! "point_estimate" = Some (PFloat 500) ∧
    d !! "std_dev" = Some (PDict sd) ∧
    sd !! "point_estimate" = Some (PFloat 1).
Proof.
  apply (proj1 (parse_estimates_results fs_demo
                  (CRITERION_DIR </> "encode_base64" </> "LUT" </> "65536"))
               (Estimates (PFloat 500) (PFloat 1))).
  vm_compute. reflexivity.
Defined.

(** ** GroupAggregator: cells, emptiness and errors *)

Lemma foldM_raise_inv {A S} (P : exn → Prop) (body : S → A → result S) (l : list A) :
  (∀ s x e, body s x = Raise e → P e) →
  ∀ s e, foldM body s l = Raise e → P e.
Proof.
  intros Hbody. induction l as [|x l IH]; intros s e; [discriminate|].
  simpl. destruct (body s x) as [s'|e'] eqn:Hx; cbn [mbind result_bind].
  - apply IH.
  - intros [= <-]. by apply Hbody in Hx.
Qed.

Lemma foldM_skip {A S} (body : S → A → result S) (l : list A) (s : S) :
  (∀ x, x ∈ l → body s x = Ok s) → foldM body s l = Ok s.
Proof.
  induction l as [|x l IH]; intros Hskip; [reflexivity|].
  simpl. rewrite Hskip by apply list_elem_of_here. cbn [mbind result_bind].
  apply IH. intros y Hy. apply Hskip. by apply list_elem_of_further.
Qed.

Lemma get_throughput_nonzero (mean : pyval) (size : Z) (r : float * string) :
  get_throughput mean size = Ok r → Py.is_zero mean = false.
Proof.
  intros Hr. destruct (Py.is_zero mean) eqn:Hzero; [|reflexivity].
  destruct (zero_mean_seconds _ Hzero) as (seconds & Hs & Hz).
  rewrite (get_throughput_zero_seconds _ size _ Hs Hz) in Hr.
  destruct (Py.float_of_int size); discriminate.
Qed.

(** A cell of the results is the measured cell of its location. *)
Lemma summarize_dictionary_measured fs group_dir results path size c :
  summarize_dictionary fs group_dir = Ok results →
  cell results path size = Some c →
  path ∈ paths ∧ size ∈ sizes ∧ measured fs (group_dir </> path) size c.
Proof.
  intros Hsum Hc. unfold summarize_dictionary in Hsum.
  destruct (summarize_paths_ok _ _ _ _ _ Hsum path) as [Hin Hout].
  unfold cell in Hc. destruct (results !! path) as [m|] eqn:Hm; [|discriminate].
  cbn in Hc.
  destruct (decide (path ∈ paths ∧ Fs.exists_ fs (group_dir </> path) = true))
    as [Hyes|Hno].
  - destruct (Hin Hyes) as (m' & [= <-] & Hcells).
    apply Hcells in Hc as [Hsize Hmeasured]. by destruct Hyes.
  - rewrite lookup_empty in Hout. by discriminate Hout.
Qed.

(** X4: every cell of an aggregated group carries the mean and the standard
    deviation exactly as the reader returned them for that location,
    together with the rate and display that the throughput function gives
    for this mean and this size; its mean is a number and is not zero. *)
Theorem summarize_dictionary_cells fs group_dir results path size c :
  summarize_dictionary fs group_dir = Ok results →
  cell results path size = Some c →
  parse_estimates fs (group_dir </> path </> Py.str_of_int size)
    = Ok (Some (Estimates (mean_ns c) (std_dev_ns c))) ∧
  get_throughput (mean_ns c) size = Ok (throughput_mbps c, throughput c) ∧
  Py.as_num (mean_ns c) ≠ None ∧
  Py.is_zero (mean_ns c) = false.
Proof.
  intros Hsum Hc.
  destruct (summarize_dictionary_measured _ _ _ _ _ _ Hsum Hc)
    as (_ & _ & _ & est & mb & display & Hparse & Hget & ->).
  cbn [mean_ns std_dev_ns throughput throughput_mbps].
  split; [by destruct est|]. split; [done|]. split.
  - by apply get_throughput_ok in Hget as [? _].
  - by apply get_throughput_nonzero in Hget.
Qed.

Lemma summarize_dictionary_cells_witness :
  get_throughput (PFloat 500) 65536 = Ok (125000%float, "122.07 GB/s") ∧
  Py.is_zero (PFloat 500) = false.
Proof.
  destruct (summarize_dictionary_cells fs_demo (CRITERION_DIR </> "encode_base64")
              (results_of fs_demo "encode_base64") "LUT" 65536
              (Entry (PFloat 500) (PFloat 1) "122.07 GB/s" 125000))
    as (_ & Hget & _ & Hzero); [vm_compute; reflexivity..|].
  split; [exact Hget|exact Hzero].
Defined.

Lemma summarize_path_absent fs group_dir results path :
  Fs.exists_ fs (group_dir </> path) = false →
  summarize_path fs group_dir results path = Ok results.
Proof. unfold summarize_path. by intros ->. Qed.

Lemma summarize_dictionary_no_variants fs group_dir :
  (∀ path, path ∈ paths → Fs.exists_ fs (group_dir </> path) = false) →
  summarize_dictionary fs group_dir = Ok ∅.
Proof.
  intros Habsent. apply foldM_skip. intros path Hpath.
  by apply summarize_path_absent, Habsent.
Qed.

(** X5: the aggregation returns the empty results exactly when none of the
    three variant locations exists under the group, which includes a group
    location that does not exist itself; it does not raise then. *)
Theorem summarize_dictionary_empty fs group_dir :
  summarize_dictionary fs group_dir = Ok ∅ ↔
  ∀ path, path ∈ paths → Fs.exists_ fs (group_dir </> path) = false.
Proof.
  split; [|apply summarize_dictionary_no_variants].
  intros Hsum path Hpath. unfold summarize_dictionary in Hsum.
  destruct (summarize_paths_ok _ _ _ _ _ Hsum path) as [Hin _].
  destruct (Fs.exists_ fs (group_dir </> path)) eqn:Hex; [|reflexivity].
  destruct Hin as (m & Hm & _); [done|]. by rewrite lookup_empty in Hm.
Qed.

(** The exceptions of the aggregation in this model of the file system,
    where every file can be read. *)
Lemma summarize_dictionary_raises fs group_dir (e : exn) :
  summarize_dictionary fs group_dir = Raise e →
  e ∈ [NotADirectoryError; IsADirectoryError; UnicodeDecodeError; ValueError;
       RecursionError; TypeError; ZeroDivisionError; OverflowError].
Proof.
  unfold summarize_dictionary. revert e.
  apply (foldM_raise_inv
           (λ e, e ∈ [NotADirectoryError; IsADirectoryError; UnicodeDecodeError;
                      ValueError; RecursionError; TypeError; ZeroDivisionError;
                      OverflowError])).
  intros results path e'. unfold summarize_path.
  destruct (negb _); [discriminate|]. revert e'.
  apply (foldM_raise_inv
           (λ e, e ∈ [NotADirectoryError; IsADirectoryError; UnicodeDecodeError;
                      ValueError; RecursionError; TypeError; ZeroDivisionError;
                      OverflowError])).
  intros results' size e''. unfold summarize_size.
  destruct (Fs.exists_ fs _); [|discriminate].
  destruct (parse_estimates fs _) as [[est|]|e1] eqn:Hp; cbn [mbind result_bind];
    [| discriminate | intros [= <-]; apply parse_estimates_raises in Hp; set_solver].
  destruct (get_throughput _ size) as [[mb display]|e2] eqn:Hg; cbn [mbind result_bind];
    [discriminate|intros [= <-]].
  unfold get_throughput in Hg.
  destruct (Py.truediv (est_mean_ns est) _) as [seconds|e3] eqn:H1;
    cbn [mbind result_bind] in Hg.
  2:{ injection Hg as <-.
      apply truediv_raises in H1 as [[-> _]|[[->| ->] _]]; set_solver. }
  destruct (Py.truediv (PInt size) _) as [bps|e4] eqn:H2; cbn [mbind result_bind] in Hg.
  2:{ injection Hg as <-.
      apply truediv_raises in H2 as [[-> _]|[[->| ->] _]]; set_solver. }
  rewrite truediv_float_mib in Hg. cbn [mbind result_bind] in Hg.
  destruct (1000 <=? bps / 1048576)%float; [|discriminate].
  rewrite truediv_float_1024 in Hg. discriminate.
Qed.

(** X6: the three failures that the reader collapses never leave the
    aggregation of a group. Whatever [summarize_dictionary] raises, it is
    not FileNotFoundError, JSONDecodeError or KeyError: a missing location,
    a text that is not JSON and a missing key never abort a group. *)
Theorem summarize_dictionary_never_raises fs group_dir (e : exn) :
  summarize_dictionary fs group_dir = Raise e →
  e ≠ FileNotFoundError ∧ e ≠ JSONDecodeError ∧ e ≠ KeyError.
Proof. intros H%summarize_dictionary_raises. set_solver. Qed.

Lemma summarize_dictionary_never_raises_witness :
  summarize_dictionary fs_zero_mean (CRITERION_DIR </> "encode") = Raise ZeroDivisionError ∧
  ZeroDivisionError ≠ FileNotFoundError ∧
  ZeroDivisionError ≠ JSONDecodeError ∧
  ZeroDivisionError ≠ KeyError.
Proof.
  split; [vm_compute; reflexivity|].
  apply (summarize_dictionary_never_raises fs_zero_mean (CRITERION_DIR </> "encode")).
  vm_compute. reflexivity.
Defined.

(** ** Compact mode: failure and order *)

Lemma exists_of_walk fs (q : path) (n : node) :
  Fs.walk fs q = inl n → Fs.exists_ fs q = true.
Proof. unfold Fs.exists_. by intros ->. Qed.




(** X8: when the root location is a regular file, both modes end with
    NotADirectoryError and print nothing: the existence test passes and
    the listing of the directory fails. *)
Theorem root_is_a_file (fs : node) (argv : list string) (c : content) :
  Fs.walk fs CRITERION_DIR = inl (File c) →
  main argv fs = Io [] (Raise NotADirectoryError).
Proof.
  intros Hwalk.
  assert (list_groups fs = Raise NotADirectoryError) as Hgroups.
  { unfold list_groups, Fs.iterdir. by rewrite Hwalk. }
  pose proof (exists_of_walk _ _ _ Hwalk) as Hroot.
  unfold main, print_detailed, print_full_table. rewrite Hroot, Hgroups. cbn [negb].
  rewrite (io_bind_raise _ _ NotADirectoryError) by reflexivity.
  by destruct (argv !! 1%nat) as [arg|]; [destruct (bool_decide _)|].
Qed.

Lemma root_is_a_file_witness :
  main ["bench_summary.py"; "--detailed"]
       (Dir {[ "target" := Dir {[ "criterion" := File NotJson ]} ]})
    = Io [] (Raise NotADirectoryError).
Proof. apply (root_is_a_file _ _ NotJson). reflexivity. Defined.

Global Instance item_le_trans :
  Transitive (λ a b : string * group_results, String.le a.1 b.1).
Proof. intros a b c Hab Hbc. by trans b.1. Qed.

Global Instance item_le_total :
  Total (λ a b : string * group_results, String.le a.1 b.1).
Proof. intros a b. apply (total String.le). Qed.




(** ** Detailed mode: blocks, rows and speedups *)

Lemma io_bind_outcome_ok {A B} (m : io A) (f : A → io B) (b : B) :
  outcome (m ≫= f) = Ok b → ∃ a, outcome m = Ok a ∧ outcome (f a) = Ok b.
Proof.
  unfold mbind, io_bind. destruct (outcome m) as [a|e] eqn:Hm; cbn [outcome];
    [|discriminate].
  intros H. by exists a.
Qed.

(** A loop that ends normally ran every body to its end and printed their
    outputs in turn. *)
Lemma for_each_returns {A} (l : list A) (body : A → io unit) :
  outcome (for_each l body) = Ok tt →
  Forall (λ x, outcome (body x) = Ok tt) l ∧
  printed (for_each l body) = concat ((λ x, printed (body x)) <$> l).
Proof.
  induction l as [|x l IH]; [by split|].
  cbn [for_each]. intros Hok.
  destruct (io_bind_outcome_ok _ _ _ Hok) as ([] & Hx & Hl).
  destruct (IH Hl) as [Hall Hprinted].
  split; [by constructor|].
  rewrite (io_bind_ok _ _ tt) by done. cbn [printed]. by rewrite Hprinted.
Qed.

Lemma print_group_skipped fs g : ¬ is_group fs g → print_group fs g = mret tt.
Proof.
  intros Hnot. unfold print_group.
  destruct (negb (Fs.is_dir fs g) || bool_decide (Fs.name g = "report")) eqn:Hskip;
    [reflexivity|].
  by apply skip_group_false in Hskip.
Qed.

Lemma print_group_aggregated fs g :
  is_group fs g → outcome (print_group fs g) = Ok tt →
  ∃ results, summarize_dictionary fs g = Ok results.
Proof.
  intros Hgrp%skip_group_false. unfold print_group. rewrite Hgrp.
  rewrite (io_bind_ok _ _ tt) by reflexivity.
  rewrite (io_bind_ok _ _ tt) by reflexivity.
  destruct (summarize_dictionary fs g) as [results|e]; [by exists results|].
  by rewrite (io_bind_raise _ _ e).
Qed.

Lemma print_detailed_returns fs :
  outcome (print_detailed fs) = Ok tt →
  ∃ groups,
    list_groups fs = Ok groups ∧
    outcome (for_each groups (print_group fs)) = Ok tt ∧
    printed (print_detailed fs) =
      [nl +:+ rule "=" 80; "base-d Benchmark Results (Detailed)"; rule "=" 80]
      ++ printed (for_each groups (print_group fs)).
Proof.
  unfold print_detailed.
  destruct (Fs.exists_ fs CRITERION_DIR); cbn [negb];
    [|(rewrite (io_bind_ok _ _ tt) by reflexivity); discriminate].
  destruct (list_groups fs) as [groups|e] eqn:Hgroups;
    [|(rewrite (io_bind_raise _ _ e) by reflexivity); discriminate].
  rewrite (io_bind_ok _ _ groups) by reflexivity.
  rewrite (io_bind_ok _ _ tt) by reflexivity.
  rewrite (io_bind_ok _ _ tt) by reflexivity.
  rewrite (io_bind_ok _ _ tt) by reflexivity.
  cbn [outcome printed]. intros Hok. exists groups. by repeat split.
Qed.

(** X10: a detailed report that ends normally consists of its three header
    lines followed by the blocks of the listed paths in listing order. A
    path that is no directory, or is named "report", contributes nothing;
    every other one contributes a block that starts with a blank line and
    the group's name, then a rule of 60 dashes, and its aggregation
    returned. *)
Theorem detailed_report_blocks (fs : node) :
  outcome (print_detailed fs) = Ok tt →
  ∃ groups,
    list_groups fs = Ok groups ∧
    printed (print_detailed fs) =
      [nl +:+ rule "=" 80; "base-d Benchmark Results (Detailed)"; rule "=" 80]
      ++ concat ((λ g, printed (print_group fs g)) <$> groups) ∧
    ∀ g, g ∈ groups →
      (¬ is_group fs g → printed (print_group fs g) = []) ∧
      (is_group fs g →
       ∃ results rest,
         summarize_dictionary fs g = Ok results ∧
         printed (print_group fs g) = (nl +:+ Fs.name g) :: rule "-" 60 :: rest).
Proof.
  intros (groups & Hgroups & Hok & Hprinted)%print_detailed_returns.
  destruct (for_each_returns _ _ Hok) as [Hall Hblocks].
  exists groups. split; [done|]. split; [by rewrite Hprinted, Hblocks|].
  intros g Hin. split.
  - intros Hnot. by rewrite print_group_skipped.
  - intros Hgrp.
    destruct (print_group_aggregated fs g Hgrp) as [results Hsum].
    { by apply (proj1 (Forall_forall _ _) Hall). }
    exists results. eexists. split; [done|].
    rewrite (print_group_printed _ _ _ Hgrp Hsum). reflexivity.
Qed.

Lemma detailed_report_blocks_witness :
  ∃ groups,
    list_groups fs_demo = Ok groups ∧
    printed (print_detailed fs_demo) =
      [nl +:+ rule "=" 80; "base-d Benchmark Results (Detailed)"; rule "=" 80]
      ++ concat ((λ g, printed (print_group fs_demo g)) <$> groups).
Proof.
  destruct (detailed_report_blocks fs_demo) as (groups & H1 & H2 & _);
    [vm_compute; reflexivity|].
  exists groups. split; assumption.
Defined.



Lemma print_rows_printed (results : group_results) :
  print_rows results =
    Io (detailed_row results <$> filter (λ path, is_Some (results !! path)) paths)
       (Ok tt).
Proof.
  unfold print_rows, paths. cbn [for_each]. rewrite !filter_cons, filter_nil.
  destruct (results !! "Scalar"), (results !! "LUT"), (results !! "Specialized");
    reflexivity.
Qed.

(** The variants that are keys of the results are those whose location
    exists. *)
Lemma summarize_dictionary_variants fs g results :
  summarize_dictionary fs g = Ok results →
  filter (λ path, is_Some (results !! path)) paths
    = filter (λ path, Fs.exists_ fs (g </> path) = true) paths.
Proof.
  intros Hsum. unfold summarize_dictionary in Hsum.
  pose proof (summarize_paths_ok _ _ _ _ _ Hsum) as H.
  assert (∀ path, path ∈ paths →
            is_Some (results !! path) ↔ Fs.exists_ fs (g </> path) = true) as Hkey.
  { intros path Hpath. destruct (H path) as [Hin Hout]. split.
    - intros Hsome. destruct (Fs.exists_ fs (g </> path)) eqn:Hex; [done|].
      rewrite Hout, lookup_empty in Hsome by (intros [_ ?]; congruence).
      by destruct Hsome.
    - intros Hex. destruct (Hin (conj Hpath Hex)) as (m & -> & _). by eexists. }
  unfold paths in *.
  pose proof (Hkey "Scalar" ltac:(repeat constructor)) as H1.
  pose proof (Hkey "LUT" ltac:(repeat constructor)) as H2.
  pose proof (Hkey "Specialized" ltac:(repeat constructor)) as H3.
  rewrite !filter_cons, !filter_nil.
  repeat destruct (decide _); tauto.
Qed.

(** X12: the block that detailed mode prints for a group with a variant
    location is the name line, the rule and the two header lines, then one
    row for each variant whose location exists, in the order Scalar, LUT,
    Specialized, then the speedup section. A row is the variant's name
    indented by two and padded to 12, followed by three cells for the sizes
    64, 1024 and 65536, each after one space and padded to 10, holding the
    display of the cell or a dash; a variant without any record has a row
    of three dashes. *)
Theorem detailed_block_rows fs g results :
  is_group fs g →
  summarize_dictionary fs g = Ok results →
  is_empty results = false →
  printed (print_group fs g) =
    [nl +:+ Fs.name g; rule "-" 60] ++ detailed_table_header
      ++ (detailed_row results <$>
            filter (λ path, Fs.exists_ fs (g </> path) = true) paths)
      ++ printed (print_speedup results) ∧
  (∀ path,
     let shown size := from_option throughput "-" (cell results path size) in
     detailed_row results path =
       ((("  " +:+ Py.ljust 12 path) +:+ " " +:+ Py.ljust 10 (shown 64))
          +:+ " " +:+ Py.ljust 10 (shown 1024))
         +:+ " " +:+ Py.ljust 10 (shown 65536)) ∧
  (∀ path, results !! path = Some ∅ →
     detailed_row results path =
       ((("  " +:+ Py.ljust 12 path) +:+ " " +:+ Py.ljust 10 "-")
          +:+ " " +:+ Py.ljust 10 "-")
         +:+ " " +:+ Py.ljust 10 "-").
Proof.
  intros Hgrp Hsum Hempty. split; [|split].
  - rewrite (print_group_printed _ _ _ Hgrp Hsum), Hempty.
    rewrite print_rows_printed. cbn [printed].
    by rewrite (summarize_dictionary_variants _ _ _ Hsum).
  - intros path shown. unfold detailed_row, shown. cbn [foldl].
    destruct (cell results path 64), (cell results path 1024),
      (cell results path 65536); reflexivity.
  - intros path Hnone. unfold detailed_row, cell. rewrite Hnone. cbn [foldl mbind option_bind].
    by rewrite !lookup_empty.
Qed.

Lemma detailed_block_rows_witness :
  printed (print_group fs_demo (CRITERION_DIR </> "encode_base64")) =
    [ nl +:+ "encode_base64"; rule "-" 60;
      "  Path         64B        1KB        64KB      ";
      "  ------------ ---------- ---------- ----------";
      "  Scalar       610.4 MB/s -          61.04 GB/s";
      "  LUT          -          -          122.07 GB/s";
      speedup_header; "    LUT: 2.0x" ].
Proof.
  destruct (detailed_block_rows fs_demo (CRITERION_DIR </> "encode_base64")
              (results_of fs_demo "encode_base64")) as [-> _].
  - split; [vm_compute; reflexivity|]. rewrite name_join. discriminate.
  - vm_compute. reflexivity.
  - vm_compute. reflexivity.
  - vm_compute. reflexivity.
Defined.




(** ** Group discovery: listing and order *)




Global Instance path_leb_total : Total (λ p q, Is_true (Fs.path_leb p q)).
Proof.
  intros p. induction p as [|a p IH]; intros q; [by left|].
  destruct q as [|b q]; [by right|]. simpl.
  rewrite (String.compare_antisym b a).
  destruct (String.compare a b); simpl; auto.
Qed.


Global Instance name_le_trans :
  Transitive (λ g g' : path, String.le (Fs.name g) (Fs.name g')).
Proof. intros a b c Hab Hbc. by trans (Fs.name b). Qed.

Global Instance join_inj (d : path) : Inj (=) (=) (Fs.join d).
Proof. intros a b H. apply (f_equal Fs.name) in H. by rewrite !name_join in H. Qed.



(** ** Compact mode: the layout of a row *)

Lemma len_app (s t : string) : Py.len (s +:+ t) = (Py.len s + Py.len t)%nat.
Proof.
  induction s as [|c s IH]; [reflexivity|].
  rewrite string_app_cons. cbn [Py.len]. destruct (Py.is_continuation c); lia.
Qed.

Lemma len_repeat_space (n : nat) : Py.len (Py.repeat_char " " n) = n.
Proof. induction n as [|n IH]; [reflexivity|]. cbn [Py.repeat_char Py.len]. simpl. lia. Qed.

Lemma len_ljust (w : nat) (s : string) :
  Py.len (Py.ljust w s) = (w `max` Py.len s)%nat.
Proof. unfold Py.ljust. rewrite len_app, len_repeat_space. lia. Qed.

(** X15: the row of a group in the compact table is the name padded to 25
    and then, for Scalar, LUT and Specialized in this order, a space and
    the display at 65536 (or a dash) padded to 12, whatever variant is
    best; the best variant's name follows after one more space when there
    is one. When the name has at most 25 characters and the displays at
    most 12, the part before the best column is exactly 64 characters
    wide. Characters are code points, and the name is one that decodes as
    UTF-8. *)
Theorem compact_row_layout (name : string) (results : group_results) :
  Py.valid_utf8 name = true →
  let shown path := from_option throughput "-" (cell results path 65536) in
  let cells :=
    ((Py.ljust 25 name +:+ " " +:+ Py.ljust 12 (shown "Scalar"))
       +:+ " " +:+ Py.ljust 12 (shown "LUT"))
      +:+ " " +:+ Py.ljust 12 (shown "Specialized") in
  row (compact_scan name results) = cells ∧
  compact_row name results =
    match best_path (compact_scan name results) with
    | Some p => cells +:+ " " +:+ p
    | None => cells
    end ∧
  ((Py.len name ≤ 25)%nat →
   (∀ path, (Py.len (shown path) ≤ 12)%nat) →
   Py.len cells = 64%nat).
Proof.
  intros _ shown cells. split; [|split].
  - unfold cells, shown, compact_scan, paths. cbn [foldl]. unfold compact_step.
    destruct (cell results "Scalar" 65536), (cell results "LUT" 65536),
      (cell results "Specialized" 65536);
      cbn [best_path best_throughput row]; scan_cases; reflexivity.
  - unfold compact_row, cells, shown, compact_scan, paths. cbn [foldl].
    unfold compact_step.
    destruct (cell results "Scalar" 65536), (cell results "LUT" 65536),
      (cell results "Specialized" 65536);
      cbn [best_path best_throughput row]; scan_cases; reflexivity.
  - intros Hname Hshown. unfold cells.
    pose proof (Hshown "Scalar"). pose proof (Hshown "LUT").
    pose proof (Hshown "Specialized").
    rewrite !len_app, !len_ljust. change (Py.len " ") with 1%nat. lia.
Qed.

Lemma compact_row_layout_witness :
  Py.len "café" = 4%nat ∧
  String.length "café" = 5%nat ∧
  Py.ljust 25 "café" = "café                     " ∧
  Py.len (row (compact_scan "café" (results_of fs_tie "encode"))) = 64%nat.
Proof.
  split; [reflexivity|]. split; [reflexivity|]. split; [reflexivity|].
  pose proof (compact_row_layout "café" (results_of fs_tie "encode") eq_refl) as H.
  cbv zeta in H. destruct H as (Hrow & _ & Hlen).
  rewrite Hrow. apply Hlen; [vm_compute; lia|].
  intros path.
  destruct (cell (results_of fs_tie "encode") path 65536) as [c|] eqn:Hc;
    [|vm_compute; lia].
  destruct (summarize_dictionary_measured fs_tie (CRITERION_DIR </> "encode")
              (results_of fs_tie "encode") path 65536 c)
    as (Hpath & _ & _); [vm_compute; reflexivity|exact Hc|].
  unfold paths in Hpath.
  repeat (apply elem_of_cons in Hpath as [->|Hpath];
          [vm_compute in Hc; injection Hc as <-; vm_compute; lia|]).
  by apply elem_of_nil in Hpath.
Defined.
